(** * The browser compiler of remix-dev and its CSS-modules plugin

    A shallow embedding of
    - [compiler/compileBrowser.ts] (the compiler orchestrator:
      [getExternals], [writeAssetsManifest], [createEsbuildConfig],
      [createBrowserCompiler] with its [compile] and [dispose]), and
    - [compiler/plugins/cssModulesPlugin.ts] (the scoped-style transform).

    The bundler engine (esbuild), the manifest builder, the dependency
    lister and Node's [path] and [JSON] are collaborators of the code: they
    are taken as parameters ([Runtime] for what is fixed during a process,
    [Oracle] for what may answer differently at every call). *)

From Stdlib Require Import String Ascii List Bool Arith Lia.
From stdpp Require Import base option list strings gmap fin_maps.
Import ListNotations.

Local Open Scope string_scope.
Local Open Scope list_scope.

(** ** JavaScript strings and arrays *)

(** [s.startsWith(p)] *)
Definition startsWith (s p : string) : bool := String.prefix p s.

(** [s.endsWith(p)]: the last [length p] characters of [s] are [p]. *)
Definition endsWith (s p : string) : bool :=
  let n := String.length s in
  let k := String.length p in
  if Nat.leb k n then String.eqb (substring (n - k) k s) p else false.

(** [l.includes(x)] on an array of strings *)
Definition includes (l : list string) (x : string) : bool :=
  existsb (String.eqb x) l.

(** [l.join(sep)] *)
Definition join (sep : string) (l : list string) : string :=
  String.concat sep l.

(** A rejected promise or a thrown exception carries an [Error]. *)
Record Error := mkError { message : string }.

Definition Result (A : Type) : Type := Error + A.

(** ** Configuration *)

Inductive Mode := Development | Production | Test.

Definition Mode_eqb (a b : Mode) : bool :=
  match a, b with
  | Development, Development | Production, Production | Test, Test => true
  | _, _ => false
  end.

Record CompileOptions := {
  mode : Mode;
  sourcemap : bool;
}.

Record ConfigRoute := { file : string }.

Record RemixConfig := {
  rootDirectory : string;
  appDirectory : string;
  entryClientFile : string;
  routes : gmap string ConfigRoute;
  assetsBuildDirectory : string;
  publicPath : string;
  tsconfigPath : option string;
  devServerPort : option N;
}.

(** What Node and the packages outside this repository provide, fixed for
    the life of the process. *)
Class Runtime := {
  (** [builtinModules] of Node's [module] *)
  nodeBuiltins : list string;
  (** [getAppDependencies] of [./dependencies]: the object of the
      application's dependencies, name to version *)
  getAppDependencies : RemixConfig -> gmap string string;
  path_join : string -> string -> string;
  path_resolve : string -> string -> string;
  path_dirname : string -> string;
  path_basename : string -> string;
  path_relative : string -> string -> string;
  process_cwd : string;
  toUpperCase : string -> string;
  (** [Buffer.from(s).toString("base64")] *)
  toBase64 : string -> string;
  cssBuildVirtualModule_id : string;
}.

(** [Object.keys(o)] *)
Definition Object_keys {V} (o : gmap string V) : list string :=
  (map_to_list o).*1.

Section GetExternals.
Context `{Runtime}.

Definition fakeBuiltins (dependencies : list string) : list string :=
  List.filter (fun mod_ => includes dependencies mod_) nodeBuiltins.

Definition externalsError (fake : list string) : Error :=
  mkError ("It appears you're using a module that is built in to node, but you installed it as a dependency which could cause problems. Please remove "
           +:+ join ", " fake +:+ " before continuing.").

Definition getExternals (remixConfig : RemixConfig) : Result (list string) :=
  let dependencies := Object_keys (getAppDependencies remixConfig) in
  let fake := fakeBuiltins dependencies in
  if Nat.ltb 0 (List.length fake) then inl (externalsError fake)
  else inr (List.filter (fun mod_ => negb (includes dependencies mod_)) nodeBuiltins).
End GetExternals.

(** ** The bundler engine's data *)

(** The two build targets, ["app" | "css"]. *)
Inductive BuildTarget := App | Css.

Definition BuildTarget_eqb (a b : BuildTarget) : bool :=
  match a, b with
  | App, App | Css, Css => true
  | _, _ => false
  end.

(** The plugins handed to the engine, in registration order. *)
Inductive Plugin :=
| cssModulesPlugin (mode : Mode) (emitCss : bool)
| cssEntryModulePlugin
| cssFilePlugin
| urlImportsPlugin
| mdxPlugin
| browserRouteModulesPlugin (filter : string)
| emptyModulesPlugin (filter : string)
| NodeModulesPolyfillPlugin
| yarnPnpPlugin.

(** [esbuild.BuildOptions], with the fields this code sets. The [loader]
    table and the [define] substitutions are constants of other modules and
    no statement below reads them; they are left out. *)
Record BuildOptions := {
  entryPoints : gmap string string;
  outdir : string;
  platform : string;
  format : string;
  external : list string;
  bundle : bool;
  logLevel : string;
  splitting : bool;
  bo_sourcemap : bool;
  tsconfig : option string;
  mainFields : list string;
  treeShaking : bool;
  minify : bool;
  entryNames : string;
  chunkNames : string;
  assetNames : string;
  bo_publicPath : string;
  jsx : string;
  jsxDev : bool;
  plugins : list Plugin;
  metafile : option bool;
  write : option bool;
  incremental : option bool;
}.

Record OutputFile := {
  path : string;
  contents : string;
}.

(** The dependency-graph metadata of a build, opaque to this code. *)
Definition Metafile : Type := string.

(** [esbuild.BuildIncremental]: the result of a build, which is also the
    handle whose [rebuild()] re-runs it and whose [rebuild.dispose()]
    releases it. [handle] is the identity of the object. *)
Record BuildIncremental := {
  handle : nat;
  result_metafile : option Metafile;
  outputFiles : option (list OutputFile);
}.

(** [AssetsManifest] of [./assets]: [fields] stands for what the manifest
    builder contributes besides the version. *)
Record AssetsManifest := {
  version : string;
  url : option string;
  fields : string;
}.

Definition set_url (m : AssetsManifest) (u : string) : AssetsManifest :=
  {| version := version m; url := Some u; fields := fields m |}.

(** [WriteChannel<AssetsManifest>] of [./utils/channel]: the channel object
    handed to [compile]. Its [write] takes the value by reference; a call
    of it is recorded as [EvChannelWrite]. *)
Record WriteChannel := { channel_id : nat }.

(** What the collaborators answer during one call of [compile]. *)
Record Oracle := {
  (** [esbuild.build(options)] *)
  esbuild_build : BuildOptions -> Result BuildIncremental;
  (** [handle.rebuild()] *)
  esbuild_rebuild : BuildIncremental -> Result BuildIncremental;
  (** [createAssetsManifest({config, metafile, cssBundlePath})] *)
  createAssetsManifest :
    RemixConfig -> option Metafile -> option string -> Result AssetsManifest;
  (** [JSON.stringify] of a manifest *)
  JSON_stringify : AssetsManifest -> string;
  (** whether the stylesheet promise (build and callback) settles before
      the application build's; it decides which rejection [Promise.all]
      reports when both fail, and whether the stylesheet callback has run
      when the application build is rejected *)
  cssSettlesFirst : bool;
}.

(** ** The world outside the orchestrator *)

(** Calls to collaborators, in the order they are issued. *)
Inductive Event :=
| EvBuild (o : BuildOptions)
| EvRebuild (h : BuildIncremental)
| EvDispose (h : BuildIncremental)
| EvWriteFile (p c : string)
| EvCreateAssetsManifest (cfg : RemixConfig) (mf : option Metafile)
                         (css : option string)
| EvChannelWrite (ch : WriteChannel) (ref : nat)
| EvWriteFileSafe (p c : string).

(** [heap] holds the manifest objects, addressed by reference, because
    [compile] hands one object to the channel and then mutates it;
    [disk] holds the files this code writes itself (the engine's own
    output of the application build is the engine's business);
    [unwritable] holds the paths at which the file system rejects
    [fs.writeFile], with the error it gives;
    [log] is the sequence of calls made so far. *)
Record World := {
  heap : list AssetsManifest;
  disk : gmap string string;
  unwritable : gmap string Error;
  log : list Event;
}.

Definition emit (e : Event) (w : World) : World :=
  {| heap := heap w; disk := disk w; unwritable := unwritable w;
     log := log w ++ [e] |}.

(** [fs.writeFile(p, c)]: the call is made; its promise is rejected, and
    the file left as it was, when the file system refuses the path, and
    fulfilled with the file written otherwise. *)
Definition fs_writeFile (p c : string) (w : World) : Result unit * World :=
  match unwritable w !! p with
  | Some e => (inl e, emit (EvWriteFile p c) w)
  | None =>
      (inr tt,
       emit (EvWriteFile p c)
            {| heap := heap w; disk := <[p := c]> (disk w);
               unwritable := unwritable w; log := log w |})
  end.

(** Modelled from the spec: [writeFileSafe(p, c)] of [./utils/fs], the
    write utility that creates parent directories as needed and writes the
    file. *)
Definition writeFileSafe (p c : string) (w : World) : World :=
  emit (EvWriteFileSafe p c)
       {| heap := heap w; disk := <[p := c]> (disk w);
          unwritable := unwritable w; log := log w |}.

(** Modelled from the spec: the object [createAssetsManifest] of
    [./assets] returns. The manifest is created fresh by each call of the
    builder, so the value the builder answers is put on the heap as a new
    object; [alloc] gives the reference to it. *)
Definition alloc (m : AssetsManifest) (w : World) : nat * World :=
  (List.length (heap w),
   {| heap := heap w ++ [m]; disk := disk w;
      unwritable := unwritable w; log := log w |}).

(** [ref.url = u] *)
Definition assign_url (ref : nat) (u : string) (w : World) : World :=
  match heap w !! ref with
  | Some m => {| heap := <[ref := set_url m u]> (heap w);
                 disk := disk w; unwritable := unwritable w; log := log w |}
  | None => w
  end.

(** [o[k] = v] on a plain object, [v] being a string: the key becomes an
    own property of [o], except [__proto__], which is the accessor of the
    prototype and ignores a value that is not an object. *)
Definition assignKey (o : gmap string string) (k v : string)
  : gmap string string :=
  if String.eqb k "__proto__" then o else <[k := v]> o.

(** [Promise.all] over what the callback of [outputFiles.map] returned, a
    promise of a write or [null] for each file: fulfilled when no write is
    rejected, rejected otherwise. Of several rejections the runtime
    reports the one that comes first in time; the first in the array is
    taken here. *)
Fixpoint Promise_all (promises : list (option (Result unit))) : Result unit :=
  match promises with
  | [] => inr tt
  | Some (inl e) :: _ => inl e
  | _ :: rest => Promise_all rest
  end.

(** [Promise.all([a, b])] once both promises have settled: both values, or
    the rejection that came first. *)
Definition promiseAll2 {A B} (secondFirst : bool)
    (a : Result A) (b : Result B) : Result (A * B) :=
  match a, b with
  | inr x, inr y => inr (x, y)
  | inl e, inr _ => inl e
  | inr _, inl e => inl e
  | inl ea, inl eb => inl (if secondFirst then eb else ea)
  end.

(** [{...conf, metafile, write, incremental}] *)
Definition spread (conf : BuildOptions) (mf wr inc : option bool) : BuildOptions :=
  {| entryPoints := entryPoints conf; outdir := outdir conf;
     platform := platform conf; format := format conf;
     external := external conf; bundle := bundle conf;
     logLevel := logLevel conf; splitting := splitting conf;
     bo_sourcemap := bo_sourcemap conf; tsconfig := tsconfig conf;
     mainFields := mainFields conf; treeShaking := treeShaking conf;
     minify := minify conf; entryNames := entryNames conf;
     chunkNames := chunkNames conf; assetNames := assetNames conf;
     bo_publicPath := bo_publicPath conf; jsx := jsx conf;
     jsxDev := jsxDev conf; plugins := plugins conf;
     metafile := mf; write := wr; incremental := inc |}.

(** ** The orchestrator *)

(** The closure of [createBrowserCompiler]: its two arguments, the
    stylesheet prefix computed once, and the two handle variables. *)
Record BrowserCompiler := {
  remixConfig : RemixConfig;
  options : CompileOptions;
  cssBundlePathPrefix : string;
  appCompiler : option BuildIncremental;
  cssCompiler : option BuildIncremental;
}.

Definition compilerOf (c : BrowserCompiler) (build : BuildTarget)
  : option BuildIncremental :=
  match build with App => appCompiler c | Css => cssCompiler c end.

Definition set_compilers (c : BrowserCompiler)
    (app css : BuildIncremental) : BrowserCompiler :=
  {| remixConfig := remixConfig c; options := options c;
     cssBundlePathPrefix := cssBundlePathPrefix c;
     appCompiler := Some app; cssCompiler := Some css |}.

Section Orchestrator.
Context `{Runtime}.

Definition manifestFilename (assetsManifest : AssetsManifest) : string :=
  "manifest-" +:+ toUpperCase (version assetsManifest) +:+ ".js".

(** [writeAssetsManifest(config, assetsManifest)], the manifest being
    the object behind [ref]. *)
Definition writeAssetsManifest (o : Oracle) (config : RemixConfig)
    (ref : nat) (w : World) : Result unit * World :=
  match heap w !! ref with
  | None => (inl (mkError "TypeError"), w)
  | Some assetsManifest =>
      let filename := manifestFilename assetsManifest in
      let w1 := assign_url ref (publicPath config +:+ filename) w in
      match heap w1 !! ref with
      | None => (inl (mkError "TypeError"), w1)
      | Some mutated =>
          (inr tt,
           writeFileSafe (path_join (assetsBuildDirectory config) filename)
             ("window.__remixManifest=" +:+ JSON_stringify o mutated +:+ ";")
             w1)
      end
  end.

Definition createEsbuildConfig (build : BuildTarget) (config : RemixConfig)
    (opts : CompileOptions) : Result BuildOptions :=
  let entries : gmap string string :=
    match build with
    | Css => {[ "css-bundle" := cssBuildVirtualModule_id ]}
    | App =>
        foldl (fun acc id =>
                 match routes config !! id with
                 | Some r => assignKey acc id (file r +:+ "?browser")
                 | None => acc
                 end)
              {[ "entry.client" :=
                   path_resolve (appDirectory config) (entryClientFile config) ]}
              (Object_keys (routes config))
    end in
  let plugs :=
    [ cssModulesPlugin (mode opts) (BuildTarget_eqb build Css);
      cssEntryModulePlugin; cssFilePlugin; urlImportsPlugin; mdxPlugin;
      browserRouteModulesPlugin "\?browser$";
      emptyModulesPlugin "\.server(\.[jt]sx?)?$";
      NodeModulesPolyfillPlugin; yarnPnpPlugin ] in
  match getExternals config with
  | inl e => inl e
  | inr ext =>
      inr {| entryPoints := entries;
             outdir := assetsBuildDirectory config;
             platform := "browser"; format := "esm";
             external := ext; bundle := true; logLevel := "silent";
             splitting := negb (BuildTarget_eqb build Css);
             bo_sourcemap := sourcemap opts;
             tsconfig := tsconfigPath config;
             mainFields := ["browser"; "module"; "main"];
             treeShaking := true;
             minify := Mode_eqb (mode opts) Production;
             entryNames := "[dir]/[name]-[hash]";
             chunkNames := "_shared/[name]-[hash]";
             assetNames := "_assets/[name]-[hash]";
             bo_publicPath := publicPath config;
             jsx := "automatic";
             jsxDev := negb (Mode_eqb (mode opts) Production);
             plugins := plugs;
             metafile := None; write := None; incremental := None |}
  end.

Definition createBrowserCompiler (remixConfig : RemixConfig)
    (options : CompileOptions) : BrowserCompiler :=
  {| remixConfig := remixConfig; options := options;
     cssBundlePathPrefix :=
       path_join (assetsBuildDirectory remixConfig) "css-bundle";
     appCompiler := None; cssCompiler := None |}.

(** The options of the first, full build of a target: the shared recipe
    with the flags [compile] adds. *)
Definition fullBuildOptions (build : BuildTarget) (conf : BuildOptions)
  : BuildOptions :=
  match build with
  | App => spread conf (Some true) (write conf) (Some true)
  | Css => spread conf (Some true) (Some false) (Some true)
  end.

(** [!compiler ? esbuild.build({...}) : compiler.rebuild()]: the
    operation is issued and its promise returned, unless assembling the
    configuration throws first. *)
Definition issue (build : BuildTarget) (o : Oracle) (c : BrowserCompiler)
    (w : World) : Result (Result BuildIncremental) * World :=
  match compilerOf c build with
  | None =>
      match createEsbuildConfig build (remixConfig c) (options c) with
      | inl e => (inl e, w)
      | inr conf =>
          let opts := fullBuildOptions build conf in
          (inr (esbuild_build o opts), emit (EvBuild opts) w)
      end
  | Some compiler =>
      (inr (esbuild_rebuild o compiler), emit (EvRebuild compiler) w)
  end.

(** The callback mapped over [outputFiles], run on one file: it assigns
    [cssBundlePath], issues the write and returns the promise of the
    write, or [null]. *)
Definition outputFileCallback (prefix : string)
    (st : option string * World) (outputFile : OutputFile)
  : (option string * World) * option (Result unit) :=
  let '(cssBundlePath, w) := st in
  let outputPath := path outputFile in
  if startsWith outputPath prefix then
    if endsWith outputPath ".css" then
      let '(written, w') := fs_writeFile outputPath (contents outputFile) w in
      ((Some outputPath, w'), Some written)
    else if endsWith outputPath ".css.map" then
      let '(written, w') := fs_writeFile outputPath (contents outputFile) w in
      ((cssBundlePath, w'), Some written)
    else (st, None)
  else (st, None).

(** What the callback does to [cssBundlePath] and to the world. *)
Definition processOutputFile (prefix : string)
    (st : option string * World) (outputFile : OutputFile)
  : option string * World :=
  (outputFileCallback prefix st outputFile).1.

(** [outputFiles.map(callback)]: the callback runs for every file in
    order; the array of what it returned. *)
Fixpoint mapOutputFiles (prefix : string) (files : list OutputFile)
    (st : option string * World)
  : (option string * World) * list (option (Result unit)) :=
  match files with
  | [] => (st, [])
  | outputFile :: rest =>
      let '(st1, promise) := outputFileCallback prefix st outputFile in
      let '(st2, promises) := mapOutputFiles prefix rest st1 in
      (st2, promise :: promises)
  end.

(** [cssBundlePath] and the world once the callback has run on every
    file. *)
Definition processOutputFiles (prefix : string) (files : list OutputFile)
    (w : World) : option string * World :=
  (mapOutputFiles prefix files (None, w)).1.

(** The [.then] callback on the stylesheet build: it awaits the writes
    and is rejected when one of them is. *)
Definition cssThen (prefix : string) (compiler : BuildIncremental)
    (w : World) : Result (BuildIncremental * option string) * World :=
  let files := default [] (outputFiles compiler) in
  let '((cssBundlePath, w'), promises) := mapOutputFiles prefix files (None, w) in
  match Promise_all promises with
  | inl e => (inl e, w')
  | inr _ => (inr (compiler, cssBundlePath), w')
  end.

(** [compile]. The world it returns is the world at the moment its
    promise settles. [await Promise.all] ends when both promises are
    fulfilled or at the first rejection: when the application build is
    rejected before the stylesheet promise has settled, [compile] is
    rejected there and then, with the stylesheet build and its callback
    still running (see [compileSettled]). Of the moments at which that can
    happen two are modelled, chosen by [cssSettlesFirst]: the stylesheet
    promise has settled, or its callback has not started yet. The writes
    of the callback are all issued by the one synchronous [map]; those the
    file system accepts are taken to have landed when the stylesheet
    promise settles, also when another of them was rejected. *)
Definition compile (o : Oracle) (manifestChannel : WriteChannel)
    (c : BrowserCompiler) (w : World)
  : Result unit * BrowserCompiler * World :=
  match issue App o c w with
  | (inl e, w1) => (inl e, c, w1)
  | (inr appBuildPromise, w1) =>
  match issue Css o c w1 with
  | (inl e, w2) => (inl e, c, w2)
  | (inr cssBuild, w2) =>
      let '(cssBuildPromise, w3) :=
        match cssBuild with
        | inl e => (inl e, w2)
        | inr compiler => cssThen (cssBundlePathPrefix c) compiler w2
        end in
      match promiseAll2 (cssSettlesFirst o) appBuildPromise cssBuildPromise with
      | inl e =>
          let rejectedAt :=
            match appBuildPromise with
            | inl _ => if cssSettlesFirst o then w3 else w2
            | inr _ => w3
            end in
          (inl e, c, rejectedAt)
      | inr (appBuildResult, (cssResultCompiler, cssBundlePath)) =>
          let c' := set_compilers c appBuildResult cssResultCompiler in
          let w4 := emit (EvCreateAssetsManifest (remixConfig c)
                            (result_metafile appBuildResult) cssBundlePath) w3 in
          match createAssetsManifest o (remixConfig c)
                  (result_metafile appBuildResult) cssBundlePath with
          | inl e => (inl e, c', w4)
          | inr manifest =>
              let '(ref, w5) := alloc manifest w4 in
              let w6 := emit (EvChannelWrite manifestChannel ref) w5 in
              let '(r, w7) := writeAssetsManifest o (remixConfig c) ref w6 in
              (r, c', w7)
          end
      end
  end
  end.

(** The world once everything a call of [compile] started has finished:
    the world [compile] returned, or, when [compile] was rejected by the
    application build before the stylesheet promise had settled, that
    world after the stylesheet callback has run. *)
Definition compileSettled (o : Oracle) (manifestChannel : WriteChannel)
    (c : BrowserCompiler) (w : World) : World :=
  match issue App o c w with
  | (inr (inl _), w1) =>
      match issue Css o c w1 with
      | (inr (inr compiler), w2) =>
          if cssSettlesFirst o then (compile o manifestChannel c w).2
          else (cssThen (cssBundlePathPrefix c) compiler w2).2
      | _ => (compile o manifestChannel c w).2
      end
  | _ => (compile o manifestChannel c w).2
  end.

(** [dispose: () => appCompiler?.rebuild.dispose()] *)
Definition dispose (c : BrowserCompiler) (w : World) : World :=
  match appCompiler c with
  | Some compiler => emit (EvDispose compiler) w
  | None => w
  end.
End Orchestrator.

(** ** The CSS-modules plugin *)
Module CssModules.

Definition pluginName : string := "css-modules-plugin".
Definition namespace : string := pluginName +:+ "-ns".
Definition compiledCssQueryString : string := "?css-modules-plugin-compiled-css".

(** [cssModulesFilter = /\.module\.css$/] and
    [compiledCssFilter = /\?css-modules-plugin-compiled-css$/]: without
    the multiline flag [$] is the end of the input, so each matches the
    paths that end in the literal text. *)
Definition cssModulesFilter (p : string) : bool := endsWith p ".module.css".
Definition compiledCssFilter (p : string) : bool :=
  endsWith p compiledCssQueryString.

Definition quote : string := String "034"%char EmptyString.
Definition newline : string := String "010"%char EmptyString.

Record PluginData := {
  resolveDir : string;
  compiledCss : string;
}.

Inductive Loader := js | css.

(** What [postcss([postcssModules(..)]).process(..)] gives back: the
    compiled CSS, the source map when one was made, and the object
    handed to [getJSON] when it was called. *)
Record PostcssResult := {
  result_css : string;
  result_map : option string;
  result_json : option (gmap string string);
}.

(** The collaborators of the hooks. *)
Record PluginEnv := {
  (** [build.resolve(path, {resolveDir, kind})] *)
  build_resolve : string -> string -> string -> Result string;
  (** [fse.readFile(path, "utf8")] *)
  readFile : string -> Result string;
  (** [process(fileContents, {from, to, map})] under the given
      [generateScopedName]; the last argument tells whether a source map
      is asked for *)
  postcss_process : string -> string -> string -> bool -> Result PostcssResult;
  (** [JSON.stringify] of the exports object *)
  stringify_exports : gmap string string -> string;
}.

(** The arguments and results of the hooks, with the fields these hooks
    read and set. [pluginData] is untyped in the engine's interface: it
    is absent unless an earlier hook attached it. *)
Record OnResolveArgs := {
  resolve_path : string;
  resolve_resolveDir : string;
  resolve_kind : string;
  resolve_pluginData : option PluginData;
}.

Record OnResolveResult := {
  resolved_path : string;
  resolved_namespace : option string;
  resolved_pluginData : option PluginData;
}.

Record OnLoadArgs := {
  load_path : string;
  load_namespace : string;
  load_pluginData : option PluginData;
}.

Record OnLoadResult := {
  loaded_contents : string;
  loaded_loader : Loader;
  loaded_resolveDir : option string;
  loaded_pluginData : option PluginData;
}.

(** The [generateScopedName] option handed to [postcssModules]. *)
Definition generateScopedName (options : CompileOptions) : string :=
  if Mode_eqb (mode options) Production
  then "[hash:base64:5]"
  else "[name]__[local]__[hash:base64:5]".

(** Modelled from the spec: the expansion of a [generateScopedName]
    pattern, which postcss-modules performs and which is not part of
    these sources. [[name]] stands for the original name of the file,
    [[local]] for the authored local name and [[hash:base64:5]] for the
    first five characters of the content-derived digest [hash]; every
    other character stands for itself. [skip] counts the characters of a
    placeholder still to be passed over. *)
Fixpoint interpolate (originalName localName hash : string)
    (skip : nat) (pattern : string) : string :=
  match pattern with
  | EmptyString => EmptyString
  | String ch rest =>
      match skip with
      | S k => interpolate originalName localName hash k rest
      | O =>
          if String.prefix "[name]" pattern then
            originalName +:+ interpolate originalName localName hash 5 rest
          else if String.prefix "[local]" pattern then
            localName +:+ interpolate originalName localName hash 6 rest
          else if String.prefix "[hash:base64:5]" pattern then
            substring 0 5 hash +:+ interpolate originalName localName hash 14 rest
          else String ch (interpolate originalName localName hash 0 rest)
      end
  end.

(** The generated name of one local name of one scoped-style file. *)
Definition scopedName (options : CompileOptions)
    (originalName localName hash : string) : string :=
  interpolate originalName localName hash 0 (generateScopedName options).

(** The name mapping of a file: every local name with its generated
    name, [hashOf] giving the digest that belongs to a local name. *)
Definition nameMapping (options : CompileOptions) (originalName : string)
    (hashOf : string -> string) (locals : list string)
  : list (string * string) :=
  List.map (fun l => (l, scopedName options originalName l (hashOf l))) locals.

Section Hooks.
Context `{Runtime}.
Variable options : CompileOptions.
Variable env : PluginEnv.

(** [build.onResolve({filter: cssModulesFilter, namespace: "file"}, ..)] *)
Definition onResolveModule (args : OnResolveArgs) : Result OnResolveResult :=
  match build_resolve env (resolve_path args) (resolve_resolveDir args)
          (resolve_kind args) with
  | inl e => inl e
  | inr resolvedPath =>
      inr {| resolved_path := resolvedPath;
             resolved_namespace := None;
             resolved_pluginData := None |}
  end.

(** The compiled CSS with the source map appended when there is one. *)
Definition withSourceMap (r : PostcssResult) : string :=
  match result_map r with
  | Some map =>
      result_css r +:+ newline
        +:+ "/*# sourceMappingURL=data:application/json;base64,"
        +:+ toBase64 map +:+ " */"
  | None => result_css r
  end.

(** [build.onLoad({filter: cssModulesFilter}, ..)] *)
Definition onLoadModule (args : OnLoadArgs) : Result OnLoadResult :=
  let absolutePath := load_path args in
  let resolveDir := path_dirname absolutePath in
  match readFile env absolutePath with
  | inl e => inl e
  | inr fileContents =>
      match postcss_process env (generateScopedName options) fileContents
              absolutePath (negb (Mode_eqb (mode options) Production)) with
      | inl e => inl e
      | inr r =>
          let exports := default ∅ (result_json r) in
          let compiledCss := withSourceMap r in
          let contents :=
            join newline
              [ "import " +:+ quote +:+ "./" +:+ path_basename absolutePath
                  +:+ compiledCssQueryString +:+ quote +:+ ";";
                "export default " +:+ stringify_exports env exports +:+ ";" ] in
          let pluginData :=
            {| resolveDir := resolveDir; compiledCss := compiledCss |} in
          inr {| loaded_contents := contents;
                 loaded_loader := js;
                 loaded_resolveDir := None;
                 loaded_pluginData := Some pluginData |}
      end
  end.

(** [build.onResolve({filter: compiledCssFilter}, ..)] *)
Definition onResolveCompiledCss (args : OnResolveArgs) : OnResolveResult :=
  let pluginData := resolve_pluginData args in
  let absolutePath := path_resolve (resolve_resolveDir args) (resolve_path args) in
  {| resolved_namespace := Some namespace;
     resolved_path := path_relative process_cwd absolutePath;
     resolved_pluginData := pluginData |}.

(** [build.onLoad({filter: compiledCssFilter, namespace}, ..)];
    destructuring an absent [pluginData] throws. *)
Definition onLoadCompiledCss (args : OnLoadArgs) : Result OnLoadResult :=
  match load_pluginData args with
  | None => inl (mkError "TypeError: Cannot destructure pluginData")
  | Some pluginData =>
      inr {| loaded_resolveDir := Some (resolveDir pluginData);
             loaded_contents := compiledCss pluginData;
             loaded_loader := css;
             loaded_pluginData := None |}
  end.
End Hooks.

End CssModules.

(** ** A concrete runtime, configuration and engine

    Used to run the definitions on examples. *)
Module Fixture.

Definition upper (a : ascii) : ascii :=
  let n := nat_of_ascii a in
  if Nat.leb 97 n && Nat.leb n 122 then ascii_of_nat (n - 32) else a.

Fixpoint upperCase (s : string) : string :=
  match s with
  | EmptyString => EmptyString
  | String a s' => String (upper a) (upperCase s')
  end.

(** Two projects: the one rooted at ["/shadow"] installed [path] and
    [fs] from the registry, the other did not. *)
Definition dependenciesOf (cfg : RemixConfig) : gmap string string :=
  if String.eqb (rootDirectory cfg) "/shadow"
  then {[ "react" := "18.2.0"; "path" := "0.12.7"; "fs" := "0.0.1" ]}
  else {[ "react" := "18.2.0"; "isbot" := "3.6.5" ]}.

(** A path cut at its last ["/"]: what comes before and what comes after. *)
Fixpoint lastSlash (p : string) : option (string * string) :=
  match p with
  | EmptyString => None
  | String ch rest =>
      match lastSlash rest with
      | Some (dir, base) => Some (String ch dir, base)
      | None => if Ascii.eqb ch "/" then Some (EmptyString, rest) else None
      end
  end.

Definition dirname (p : string) : string :=
  match lastSlash p with Some (dir, _) => dir | None => "." end.

Definition basename (p : string) : string :=
  match lastSlash p with Some (_, base) => base | None => p end.

Definition relative (from to : string) : string :=
  if String.prefix from to
  then substring (String.length from) (String.length to - String.length from) to
  else to.

(** Paths here are absolute, without [.] or [..] segments, so joining is
    concatenation. *)
Definition runtime : Runtime :=
  {| nodeBuiltins := ["crypto"; "fs"; "http"; "path"];
     getAppDependencies := dependenciesOf;
     path_join := fun a b => a +:+ "/" +:+ b;
     path_resolve := fun a b => a +:+ "/" +:+ b;
     path_dirname := dirname;
     path_basename := basename;
     path_relative := relative;
     process_cwd := "/";
     toUpperCase := upperCase;
     toBase64 := fun s => "e30=";
     cssBuildVirtualModule_id := "@remix-run/dev/assets/css" |}.

Definition config (root : string) : RemixConfig :=
  {| rootDirectory := root;
     appDirectory := root +:+ "/app";
     entryClientFile := "entry.client.tsx";
     routes := {[ "routes/index" := {| file := "routes/index.tsx" |} ]};
     assetsBuildDirectory := "/public/build";
     publicPath := "/build/";
     tsconfigPath := None;
     devServerPort := Some 8002%N |}.

Definition production : CompileOptions :=
  {| mode := Production; sourcemap := false |}.

Definition appResult : BuildIncremental :=
  {| handle := 1; result_metafile := Some "{}"; outputFiles := None |}.

Definition cssResult : BuildIncremental :=
  {| handle := 2; result_metafile := Some "{}";
     outputFiles := Some
       [ {| path := "/public/build/css-bundle-AB12CD34.css";
            contents := ".x1y2z{color:red}" |};
         {| path := "/public/build/css-bundle-AB12CD34.css.map";
            contents := "{}" |};
         {| path := "/public/build/css-bundle-AB12CD34.js";
            contents := EmptyString |};
         {| path := "/public/build/_assets/logo-EF56.css";
            contents := "x" |} ] |}.

Definition isCss (o : BuildOptions) : bool :=
  bool_decide (write o = Some false).

Definition manifest : AssetsManifest :=
  {| version := "a1b2c3d4"; url := None; fields := EmptyString |}.

(** An engine on which everything succeeds. *)
Definition engine : Oracle :=
  {| esbuild_build := fun o => inr (if isCss o then cssResult else appResult);
     esbuild_rebuild := fun h => inr h;
     createAssetsManifest := fun _ _ _ => inr manifest;
     JSON_stringify := fun m =>
       "{version:" +:+ version m +:+ ",url:" +:+ default "undefined" (url m) +:+ "}";
     cssSettlesFirst := false |}.

Definition syntaxError : Error := mkError "Build failed with 1 error".

(** An engine whose stylesheet build fails. *)
Definition cssFails : Oracle :=
  {| esbuild_build := fun o => if isCss o then inl syntaxError else inr appResult;
     esbuild_rebuild := fun h => inr h;
     createAssetsManifest := createAssetsManifest engine;
     JSON_stringify := JSON_stringify engine;
     cssSettlesFirst := false |}.

(** An engine whose builds succeed, under a manifest builder that fails. *)
Definition builderFails : Oracle :=
  {| esbuild_build := esbuild_build engine;
     esbuild_rebuild := esbuild_rebuild engine;
     createAssetsManifest := fun _ _ _ => inl (mkError "Missing manifest entry");
     JSON_stringify := JSON_stringify engine;
     cssSettlesFirst := false |}.


Definition world0 : World :=
  {| heap := []; disk := ∅; unwritable := ∅; log := [] |}.


(** A world in which the build directory cannot be written. *)
Definition readOnlyWorld : World :=
  {| heap := [];
     disk := ∅;
     unwritable :=
       {[ "/public/build/css-bundle-AB12CD34.css.map" := mkError "EACCES" ]};
     log := [] |}.

Definition channel0 : WriteChannel := {| channel_id := 0 |}.

Definition fresh : BrowserCompiler :=
  @createBrowserCompiler runtime (config "/clean") production.

(** The world once the first call has issued one, then both builds. *)
Definition issuedApp (o : Oracle) : World :=
  (@issue runtime App o fresh world0).2.

Definition issuedBoth (o : Oracle) : World :=
  (@issue runtime Css o fresh (issuedApp o)).2.

(** Compiler and world after one successful call. *)
Definition built : BrowserCompiler :=
  (@compile runtime engine channel0 fresh world0).1.2.

Definition builtWorld : World :=
  (@compile runtime engine channel0 fresh world0).2.

Definition development : CompileOptions :=
  {| mode := Development; sourcemap := true |}.

Definition moduleArgs : CssModules.OnLoadArgs :=
  {| CssModules.load_path := "/app/styles/a.module.css";
     CssModules.load_namespace := "file";
     CssModules.load_pluginData := None |}.

Definition moduleData : CssModules.PluginData :=
  {| CssModules.resolveDir := "/app/styles";
     CssModules.compiledCss := ".x1y2z{color:red}" |}.

(** A file of the stylesheet build that is neither stylesheet nor map. *)
Definition stub : OutputFile :=
  {| path := "/public/build/css-bundle-AB12CD34.js"; contents := EmptyString |}.

(** The collaborators of the plugin, for one file. *)
Definition pluginEnv : CssModules.PluginEnv :=
  {| CssModules.build_resolve := fun p _ _ => inr p;
     CssModules.readFile := fun _ => inr ".title{color:red}";
     CssModules.postcss_process := fun _ _ _ withMap =>
       inr {| CssModules.result_css := ".x1y2z{color:red}";
              CssModules.result_map := if withMap then Some "{}" else None;
              CssModules.result_json := Some {[ "title" := "x1y2z" ]} |};
     CssModules.stringify_exports := fun _ => "{}" |}.

(** The runtime of the same project after [path] was installed from the
    registry. *)
Definition shadowedRuntime : Runtime :=
  {| nodeBuiltins := ["crypto"; "fs"; "http"; "path"];
     getAppDependencies := fun _ => {[ "react" := "18.2.0"; "path" := "0.12.7" ]};
     path_join := fun a b => a +:+ "/" +:+ b;
     path_resolve := fun a b => a +:+ "/" +:+ b;
     path_dirname := dirname;
     path_basename := basename;
     path_relative := relative;
     process_cwd := "/";
     toUpperCase := upperCase;
     toBase64 := fun s => "e30=";
     cssBuildVirtualModule_id := "@remix-run/dev/assets/css" |}.

(** The files the stylesheet build emitted. *)
Definition cssFiles : list OutputFile := default [] (outputFiles cssResult).

(** A world that holds the manifest as the builder returned it. *)
Definition heldWorld : World :=
  {| heap := [manifest]; disk := ∅; unwritable := ∅; log := [] |}.

Definition testing : CompileOptions :=
  {| mode := Test; sourcemap := false |}.

(** An import of compiled CSS that no load hook of the plugin produced. *)
Definition strayImport : CssModules.OnResolveArgs :=
  {| CssModules.resolve_path := "./a.module.css?css-modules-plugin-compiled-css";
     CssModules.resolve_resolveDir := "/app/styles";
     CssModules.resolve_kind := "import-statement";
     CssModules.resolve_pluginData := None |}.

End Fixture.


(** ** Notions used to state the properties *)

(** The two kinds of emitted file that [compile] persists. *)
Definition isStylesheet (prefix : string) (f : OutputFile) : bool :=
  startsWith (path f) prefix && endsWith (path f) ".css".

Definition isSourceMap (prefix : string) (f : OutputFile) : bool :=
  startsWith (path f) prefix && endsWith (path f) ".css.map".

Definition isPersisted (prefix : string) (f : OutputFile) : bool :=
  isStylesheet prefix f || isSourceMap prefix f.

(** The rejection of the first write, in the order of the emitted files,
    that the file system refuses, if there is one. *)
Definition stylesheetRejection (prefix : string) (files : list OutputFile)
    (w : World) : option Error :=
  head (omap (fun f => if isPersisted prefix f
                       then unwritable w !! path f else None) files).

(** The persisted files whose write the file system accepts. *)
Definition isWritten (prefix : string) (refused : gmap string Error)
    (f : OutputFile) : bool :=
  isPersisted prefix f && bool_decide (refused !! path f = None).

(** The writes [compile] issues for the files it persists. *)
Definition stylesheetWrites (prefix : string) (files : list OutputFile)
  : list Event :=
  List.map (fun f => EvWriteFile (path f) (contents f))
           (List.filter (isPersisted prefix) files).

(** Calls into the engine, and calls that publish or persist a manifest. *)
Definition isFullBuild (e : Event) : bool :=
  match e with EvBuild _ => true | _ => false end.

Definition isRebuild (e : Event) : bool :=
  match e with EvRebuild _ => true | _ => false end.

Definition isManifestWrite (e : Event) : bool :=
  match e with EvChannelWrite _ _ | EvWriteFileSafe _ _ => true | _ => false end.

Definition isDisposeOf (h : BuildIncremental) (e : Event) : bool :=
  match e with EvDispose h' => Nat.eqb (handle h) (handle h') | _ => false end.

Definition isEngineCall (e : Event) : bool := isFullBuild e || isRebuild e.

(** The references handed to a channel, in the order of the writes. *)
Definition channelRefs (l : list Event) : list nat :=
  omap (fun e => match e with EvChannelWrite _ ref => Some ref | _ => None end) l.

(** The handles a compiler holds for a target. *)
Definition heldHandles (c : BrowserCompiler) (build : BuildTarget)
  : list BuildIncremental :=
  match compilerOf c build with Some h => [h] | None => [] end.

Section Reachable.
Context `{Runtime}.

(** The world a completed [compile] leaves: [w3] is the world after the
    stylesheet post-processing. *)
Definition completedWorld (o : Oracle) (ch : WriteChannel) (cfg : RemixConfig)
    (mf : option Metafile) (cssBundlePath : option string)
    (m : AssetsManifest) (w3 : World) : World :=
  let filename := manifestFilename m in
  let mutated := set_url m (publicPath cfg +:+ filename) in
  let content := "window.__remixManifest=" +:+ JSON_stringify o mutated +:+ ";" in
  {| heap := heap w3 ++ [mutated];
     disk := <[path_join (assetsBuildDirectory cfg) filename := content]> (disk w3);
     unwritable := unwritable w3;
     log := log w3 ++ [ EvCreateAssetsManifest cfg mf cssBundlePath;
                        EvChannelWrite ch (List.length (heap w3));
                        EvWriteFileSafe
                          (path_join (assetsBuildDirectory cfg) filename) content ] |}.

(** The states of one orchestrator instance: the fresh one, and what
    [compile] and [dispose] make of a state. *)
Inductive reachable (cfg : RemixConfig) (opts : CompileOptions)
  : BrowserCompiler -> Prop :=
| reachable_fresh : reachable cfg opts (createBrowserCompiler cfg opts)
| reachable_compile o ch c w :
    reachable cfg opts c ->
    reachable cfg opts (snd (fst (compile o ch c w))).

(** A sequence of [compile] calls, one oracle and channel per call. *)
Fixpoint compileAll (calls : list (Oracle * WriteChannel))
    (c : BrowserCompiler) (w : World) : BrowserCompiler * World :=
  match calls with
  | [] => (c, w)
  | (o, ch) :: calls' =>
      let '(_, c', w') := compile o ch c w in compileAll calls' c' w'
  end.
End Reachable.

(** * Properties *)

(** Lists of events are compared in their right-nested form. *)
Ltac list_normal := repeat (progress (cbn [app]; rewrite <- ?app_assoc)).

(** ** Strings and arrays *)

Lemma includes_In (l : list string) (x : string) :
  includes l x = true <-> In x l.
Proof.
  unfold includes. rewrite existsb_exists. split.
  - intros (y & Hy & Heq). apply String.eqb_eq in Heq. now subst.
  - intros Hx. exists x. split; [exact Hx | apply String.eqb_refl].
Qed.

Lemma Object_keys_In {V} (o : gmap string V) (k : string) :
  In k (Object_keys o) <-> is_Some (o !! k).
Proof.
  unfold Object_keys. rewrite <- list_elem_of_In, list_elem_of_fmap. split.
  - intros ([k' v] & -> & Hin). apply elem_of_map_to_list in Hin. eauto.
  - intros [v Hv]. exists (k, v). split; [done | now apply elem_of_map_to_list].
Qed.

Lemma filter_all {A} (f : A -> bool) (l : list A) :
  (forall x, In x l -> f x = true) -> List.filter f l = l.
Proof.
  induction l as [| a l IH]; intros Hall; simpl; [reflexivity |].
  rewrite (Hall a (or_introl eq_refl)). f_equal. apply IH.
  intros x Hx. apply Hall. now right.
Qed.

(** ** External modules *)

Section ExternalsFacts.
Context `{Runtime}.

Lemma fakeBuiltins_In (dependencies : list string) (m : string) :
  In m (fakeBuiltins dependencies) <-> In m nodeBuiltins /\ In m dependencies.
Proof.
  unfold fakeBuiltins. rewrite filter_In, includes_In. reflexivity.
Qed.

Lemma getExternals_throws (cfg : RemixConfig) :
  fakeBuiltins (Object_keys (getAppDependencies cfg)) <> [] ->
  getExternals cfg
  = inl (externalsError (fakeBuiltins (Object_keys (getAppDependencies cfg)))).
Proof.
  intros Hne. unfold getExternals.
  destruct (fakeBuiltins _) as [| a l]; [congruence | reflexivity].
Qed.

Lemma compile_throws_at_setup (cfg : RemixConfig) (opts : CompileOptions)
    (o : Oracle) (ch : WriteChannel) (w : World) (e : Error) :
  getExternals cfg = inl e ->
  compile o ch (createBrowserCompiler cfg opts) w
  = (inl e, createBrowserCompiler cfg opts, w).
Proof.
  intros He. unfold compile, issue, createEsbuildConfig. simpl.
  rewrite He. reflexivity.
Qed.

(** C1. If a dependency of the application has the name of a builtin
    module, [getExternals] throws the error that lists the builtins found
    among the dependencies, which are exactly the names on both sides, and
    [compile] on a fresh compiler fails with that error without having
    called anything: the compiler and the world, log included, are as
    before. If no dependency has the name of a builtin, [getExternals]
    returns the list of builtins as it is. *)
Theorem getExternals_shadowing (cfg : RemixConfig) :
  ((exists d, is_Some (getAppDependencies cfg !! d) /\ In d nodeBuiltins) ->
   exists fake : list string,
     getExternals cfg = inl (externalsError fake)
     /\ message (externalsError fake)
        = "It appears you're using a module that is built in to node, but you installed it as a dependency which could cause problems. Please remove "
            +:+ join ", " fake +:+ " before continuing."
     /\ (forall m, In m fake
                   <-> In m nodeBuiltins /\ is_Some (getAppDependencies cfg !! m))
     /\ forall opts o ch w,
          compile o ch (createBrowserCompiler cfg opts) w
          = (inl (externalsError fake), createBrowserCompiler cfg opts, w))
  /\ ((forall d, is_Some (getAppDependencies cfg !! d) -> ~ In d nodeBuiltins) ->
      getExternals cfg = inr nodeBuiltins).
Proof.
  split.
  - intros (d & Hdep & Hbuiltin).
    set (fake := fakeBuiltins (Object_keys (getAppDependencies cfg))).
    assert (Hin : forall m, In m fake
                  <-> In m nodeBuiltins /\ is_Some (getAppDependencies cfg !! m)).
    { intros m. unfold fake. rewrite fakeBuiltins_In, Object_keys_In. reflexivity. }
    assert (Hne : fake <> []).
    { intros Hnil. assert (Hd : In d fake) by (apply Hin; auto).
      rewrite Hnil in Hd. inversion Hd. }
    exists fake. split; [now apply getExternals_throws |].
    split; [reflexivity |]. split; [exact Hin |].
    intros opts o ch w. apply compile_throws_at_setup.
    now apply getExternals_throws.
  - intros Hdisjoint. unfold getExternals.
    assert (Hnone : fakeBuiltins (Object_keys (getAppDependencies cfg)) = []).
    { destruct (fakeBuiltins _) as [| a l] eqn:E; [reflexivity |].
      assert (Ha : In a (fakeBuiltins (Object_keys (getAppDependencies cfg))))
        by (rewrite E; now left).
      apply fakeBuiltins_In in Ha. destruct Ha as [Hb Hd].
      apply Object_keys_In in Hd. exfalso. exact (Hdisjoint a Hd Hb). }
    rewrite Hnone. simpl. f_equal. apply filter_all.
    intros m Hm. apply negb_true_iff.
    destruct (includes _ m) eqn:E; [| reflexivity].
    apply includes_In, Object_keys_In in E. exfalso. exact (Hdisjoint m E Hm).
Qed.
End ExternalsFacts.

(** The project that installed [path] and [fs] cannot be set up; the other
    one gets every builtin as an external. *)
Lemma getExternals_shadowing_witness :
  (exists fake : list string,
     @getExternals Fixture.runtime (Fixture.config "/shadow")
     = inl (externalsError fake)
     /\ forall m, In m fake <-> In m ["crypto"; "fs"; "http"; "path"]
                               /\ is_Some (Fixture.dependenciesOf (Fixture.config "/shadow") !! m))
  /\ @getExternals Fixture.runtime (Fixture.config "/clean")
     = inr ["crypto"; "fs"; "http"; "path"].
Proof.
  split.
  - destruct (proj1 (@getExternals_shadowing Fixture.runtime (Fixture.config "/shadow")))
      as (fake & Hthrow & _ & Hexact & _).
    + exists "path". split; [vm_compute; eauto | vm_compute; tauto].
    + exists fake. split; [exact Hthrow | exact Hexact].
  - apply (proj2 (@getExternals_shadowing Fixture.runtime (Fixture.config "/clean"))).
    intros d Hd Hb. apply Object_keys_In in Hd.
    assert (Hkeys : Object_keys (Fixture.dependenciesOf (Fixture.config "/clean"))
                    = ["isbot"; "react"]) by (vm_compute; reflexivity).
    simpl getAppDependencies in Hd. rewrite Hkeys in Hd. simpl in Hd, Hb.
    destruct Hd as [Hd | [Hd | []]]; subst d;
      destruct Hb as [Hb | [Hb | [Hb | [Hb | []]]]]; discriminate Hb.
Defined.

(** ** Stylesheet post-processing *)

Section StylesheetFacts.
Context `{Runtime}.

Lemma processOutputFile_cases (prefix : string) (cssBundlePath : option string)
    (w : World) (f : OutputFile) :
  processOutputFile prefix (cssBundlePath, w) f
  = if isStylesheet prefix f
    then (Some (path f), (fs_writeFile (path f) (contents f) w).2)
    else if isSourceMap prefix f
         then (cssBundlePath, (fs_writeFile (path f) (contents f) w).2)
         else (cssBundlePath, w).
Proof.
  unfold processOutputFile, outputFileCallback, isStylesheet, isSourceMap.
  destruct (startsWith (path f) prefix); simpl; [| reflexivity].
  destruct (endsWith (path f) ".css");
    [now destruct (fs_writeFile _ _ _) |].
  destruct (endsWith (path f) ".css.map");
    [now destruct (fs_writeFile _ _ _) | reflexivity].
Qed.

(** What the callback returns: the promise of the write for a persisted
    file, [null] for another. *)
Lemma outputFileCallback_promise (prefix : string) (st : option string * World)
    (f : OutputFile) :
  (outputFileCallback prefix st f).2
  = if isPersisted prefix f
    then Some (fs_writeFile (path f) (contents f) st.2).1
    else None.
Proof.
  destruct st as [cssBundlePath w].
  unfold outputFileCallback, isPersisted, isStylesheet, isSourceMap.
  destruct (startsWith (path f) prefix); simpl; [| reflexivity].
  destruct (endsWith (path f) ".css");
    [now destruct (fs_writeFile _ _ _) |].
  destruct (endsWith (path f) ".css.map");
    [now destruct (fs_writeFile _ _ _) | reflexivity].
Qed.

Lemma isPersisted_iff (prefix : string) (f : OutputFile) :
  isPersisted prefix f = true
  <-> startsWith (path f) prefix = true
      /\ (endsWith (path f) ".css" = true \/ endsWith (path f) ".css.map" = true).
Proof.
  unfold isPersisted, isStylesheet, isSourceMap.
  rewrite orb_true_iff, !andb_true_iff. tauto.
Qed.

Lemma fs_writeFile_world (p c : string) (w : World) :
  heap (fs_writeFile p c w).2 = heap w
  /\ unwritable (fs_writeFile p c w).2 = unwritable w
  /\ log (fs_writeFile p c w).2 = log w ++ [EvWriteFile p c]
  /\ disk (fs_writeFile p c w).2
     = (if bool_decide (unwritable w !! p = None)
        then <[p := c]> (disk w) else disk w)
  /\ (fs_writeFile p c w).1
     = match unwritable w !! p with Some e => inl e | None => inr tt end.
Proof.
  unfold fs_writeFile. destruct (unwritable w !! p) as [e |] eqn:E;
    cbn [fst snd heap unwritable log disk emit];
    case_bool_decide; try discriminate; try congruence; auto.
Qed.

(** The array [map] returns is beside the state the callbacks leave: the
    state is the fold of the callback's effect. *)
Lemma mapOutputFiles_fold (prefix : string) (files : list OutputFile) :
  forall st, (mapOutputFiles prefix files st).1
             = fold_left (processOutputFile prefix) files st.
Proof.
  induction files as [| f files IH]; intros st; [reflexivity |].
  cbn [mapOutputFiles fold_left]. unfold processOutputFile at 2.
  destruct (outputFileCallback prefix st f) as [st1 promise].
  specialize (IH st1). destruct (mapOutputFiles prefix files st1) as [st2 promises].
  exact IH.
Qed.

(** The fold, with its accumulator made general. *)
Lemma fold_processOutputFile (prefix : string) (files : list OutputFile) :
  forall (acc : option string) (w : World),
    let r := fold_left (processOutputFile prefix) files (acc, w) in
    heap (snd r) = heap w
    /\ log (snd r)
       = log w ++ List.map (fun f => EvWriteFile (path f) (contents f))
                           (List.filter (isPersisted prefix) files)
    /\ disk (snd r)
       = fold_left (fun d f => <[path f := contents f]> d)
                   (List.filter (isWritten prefix (unwritable w)) files) (disk w)
    /\ fst r = match last (List.filter (isStylesheet prefix) files) with
               | Some f => Some (path f)
               | None => acc
               end
    /\ unwritable (snd r) = unwritable w.
Proof.
  induction files as [| f files IH]; intros acc w.
  - simpl. rewrite app_nil_r. auto.
  - cbn [fold_left List.filter]. rewrite processOutputFile_cases.
    destruct (fs_writeFile_world (path f) (contents f) w)
      as (Hwh & Hwu & Hwl & Hwd & _).
    unfold isWritten at 1.
    destruct (isStylesheet prefix f) eqn:Ecss.
    + assert (Hpers : isPersisted prefix f = true)
        by (unfold isPersisted; now rewrite Ecss).
      rewrite Hpers.
      destruct (IH (Some (path f)) (fs_writeFile (path f) (contents f) w).2)
        as (Hh & Hl & Hd & Hp & Hu).
      cbv zeta. rewrite Hh, Hl, Hd, Hp, Hu, Hwh, Hwu, Hwl, Hwd.
      repeat split.
      * simpl. now rewrite <- app_assoc.
      * cbn [andb]. now destruct (bool_decide _).
      * destruct (List.filter (isStylesheet prefix) files) as [| g gs];
          [reflexivity |].
        change (last (f :: g :: gs)) with (last (g :: gs)).
        destruct (last (g :: gs)) eqn:E; [reflexivity |].
        apply last_None in E. discriminate E.
    + destruct (isSourceMap prefix f) eqn:Emap.
      * assert (Hpers : isPersisted prefix f = true)
          by (unfold isPersisted; now rewrite Ecss, Emap).
        rewrite Hpers.
        destruct (IH acc (fs_writeFile (path f) (contents f) w).2)
          as (Hh & Hl & Hd & Hp & Hu).
        cbv zeta. rewrite Hh, Hl, Hd, Hp, Hu, Hwh, Hwu, Hwl, Hwd.
        repeat split.
        -- simpl. now rewrite <- app_assoc.
        -- cbn [andb]. now destruct (bool_decide _).
      * assert (Hpers : isPersisted prefix f = false)
          by (unfold isPersisted; now rewrite Ecss, Emap).
        rewrite Hpers. cbn [andb]. apply IH.
Qed.

(** How [Promise.all] over the returned promises settles. *)
Lemma mapOutputFiles_promises (prefix : string) (files : list OutputFile) :
  forall (acc : option string) (w : World),
    Promise_all (mapOutputFiles prefix files (acc, w)).2
    = match stylesheetRejection prefix files w with
      | Some e => inl e
      | None => inr tt
      end.
Proof.
  induction files as [| f files IH]; intros acc w; [reflexivity |].
  cbn [mapOutputFiles].
  pose proof (outputFileCallback_promise prefix (acc, w) f) as Hpromise.
  pose proof (processOutputFile_cases prefix acc w f) as Hstate.
  unfold processOutputFile in Hstate.
  destruct (outputFileCallback prefix (acc, w) f) as [[acc1 w1] promise].
  cbn [fst snd] in Hpromise, Hstate.
  specialize (IH acc1 w1).
  destruct (mapOutputFiles prefix files (acc1, w1)) as [st2 promises].
  cbn [snd] in IH |- *. subst promise.
  destruct (fs_writeFile_world (path f) (contents f) w) as (_ & Hwu & _ & _ & Hw1).
  assert (Hu : unwritable w1 = unwritable w).
  { destruct (isStylesheet prefix f); [injection Hstate as _ ->; exact Hwu |].
    destruct (isSourceMap prefix f); injection Hstate as _ ->;
      [exact Hwu | reflexivity]. }
  assert (Hrest : stylesheetRejection prefix files w1
                  = stylesheetRejection prefix files w)
    by (unfold stylesheetRejection; now rewrite Hu).
  assert (Hstep : stylesheetRejection prefix (f :: files) w
                  = match (if isPersisted prefix f
                           then unwritable w !! path f else None) with
                    | Some e => Some e
                    | None => stylesheetRejection prefix files w
                    end).
  { unfold stylesheetRejection. cbn.
    now destruct (if isPersisted prefix f then unwritable w !! path f else None). }
  rewrite Hstep.
  destruct (isPersisted prefix f).
  - rewrite Hw1. destruct (unwritable w !! path f) as [e |]; cbn.
    + reflexivity.
    + rewrite IH, Hrest. reflexivity.
  - cbn. rewrite IH, Hrest. reflexivity.
Qed.
End StylesheetFacts.

(** ** The shape of a [compile] call *)

Section CompileFacts.
Context `{Runtime}.

Lemma processOutputFiles_fold (prefix : string) (files : list OutputFile)
    (w : World) :
  processOutputFiles prefix files w
  = fold_left (processOutputFile prefix) files (None, w).
Proof. apply mapOutputFiles_fold. Qed.

Lemma processOutputFiles_facts (prefix : string) (files : list OutputFile)
    (w : World) :
  heap (processOutputFiles prefix files w).2 = heap w
  /\ log (processOutputFiles prefix files w).2
     = log w ++ List.map (fun f => EvWriteFile (path f) (contents f))
                         (List.filter (isPersisted prefix) files)
  /\ (processOutputFiles prefix files w).1
     = (fun f => path f) <$> last (List.filter (isStylesheet prefix) files).
Proof.
  rewrite processOutputFiles_fold.
  destruct (fold_processOutputFile prefix files None w) as (Hh & Hl & _ & Hp & _).
  cbv zeta in *. repeat split; [exact Hh | exact Hl |].
  rewrite Hp. now destruct (last _).
Qed.

Lemma processOutputFiles_unwritable (prefix : string) (files : list OutputFile)
    (w : World) :
  unwritable (processOutputFiles prefix files w).2 = unwritable w.
Proof.
  rewrite processOutputFiles_fold.
  now destruct (fold_processOutputFile prefix files None w) as (_ & _ & _ & _ & Hu).
Qed.

(** The [.then] callback: rejected by the first rejected write, and
    otherwise fulfilled with the handle and the resolved path; the writes
    are issued either way. *)
Lemma cssThen_eq (prefix : string) (rc : BuildIncremental) (w : World) :
  cssThen prefix rc w
  = (match stylesheetRejection prefix (default [] (outputFiles rc)) w with
     | Some e => inl e
     | None =>
         inr (rc, (processOutputFiles prefix (default [] (outputFiles rc)) w).1)
     end,
     (processOutputFiles prefix (default [] (outputFiles rc)) w).2).
Proof.
  unfold cssThen, processOutputFiles.
  pose proof (mapOutputFiles_promises prefix (default [] (outputFiles rc)) None w)
    as Hall.
  destruct (mapOutputFiles prefix _ (None, w)) as [[cssBundlePath w'] promises].
  cbn [fst snd] in Hall |- *. rewrite Hall.
  now destruct (stylesheetRejection _ _ _).
Qed.

Lemma issue_full (build : BuildTarget) (o : Oracle) (c : BrowserCompiler)
    (w : World) (conf : BuildOptions) :
  compilerOf c build = None ->
  createEsbuildConfig build (remixConfig c) (options c) = inr conf ->
  issue build o c w
  = (inr (esbuild_build o (fullBuildOptions build conf)),
     emit (EvBuild (fullBuildOptions build conf)) w).
Proof. intros Hnone Hconf. unfold issue. now rewrite Hnone, Hconf. Qed.

Lemma issue_throws (build : BuildTarget) (o : Oracle) (c : BrowserCompiler)
    (w : World) (e : Error) :
  compilerOf c build = None ->
  createEsbuildConfig build (remixConfig c) (options c) = inl e ->
  issue build o c w = (inl e, w).
Proof. intros Hnone Hconf. unfold issue. now rewrite Hnone, Hconf. Qed.

Lemma issue_rebuild (build : BuildTarget) (o : Oracle) (c : BrowserCompiler)
    (w : World) (h : BuildIncremental) :
  compilerOf c build = Some h ->
  issue build o c w = (inr (esbuild_rebuild o h), emit (EvRebuild h) w).
Proof. intros Hsome. unfold issue. now rewrite Hsome. Qed.

(** Issuing an operation leaves heap and disk alone and logs at most the
    call into the engine. *)
Lemma issue_world (build : BuildTarget) (o : Oracle) (c : BrowserCompiler)
    (w : World) :
  (exists e, issue build o c w = (inl e, w))
  \/ (exists p ev, issue build o c w = (inr p, emit ev w)
                   /\ (isFullBuild ev || isRebuild ev) = true).
Proof.
  unfold issue. destruct (compilerOf c build) as [h |].
  - right. eauto.
  - destruct (createEsbuildConfig _ _ _) as [e | conf]; [left | right]; eauto.
Qed.

(** Handing a fresh manifest to [writeAssetsManifest]. *)
Lemma writeAssetsManifest_ok (o : Oracle) (cfg : RemixConfig) (ref : nat)
    (w : World) (m : AssetsManifest) :
  heap w !! ref = Some m ->
  let filename := manifestFilename m in
  let mutated := set_url m (publicPath cfg +:+ filename) in
  writeAssetsManifest o cfg ref w
  = (inr tt,
     {| heap := <[ref := mutated]> (heap w);
        disk := <[path_join (assetsBuildDirectory cfg) filename :=
                    "window.__remixManifest=" +:+ JSON_stringify o mutated +:+ ";"]>
                  (disk w);
        unwritable := unwritable w;
        log := log w ++ [EvWriteFileSafe
                           (path_join (assetsBuildDirectory cfg) filename)
                           ("window.__remixManifest=" +:+ JSON_stringify o mutated +:+ ";")] |}).
Proof.
  intros Hm. cbv zeta. unfold writeAssetsManifest, assign_url. rewrite Hm.
  cbn [heap]. rewrite list_lookup_insert_eq by (eapply lookup_lt_Some; eauto).
  reflexivity.
Qed.

Lemma compile_eq (o : Oracle) (ch : WriteChannel) (c : BrowserCompiler)
    (w : World) :
  compile o ch c w =
  match issue App o c w with
  | (inl e, w1) => (inl e, c, w1)
  | (inr appP, w1) =>
      match issue Css o c w1 with
      | (inl e, w2) => (inl e, c, w2)
      | (inr (inl eC), w2) =>
          (inl match appP with
               | inl eA => if cssSettlesFirst o then eC else eA
               | inr _ => eC
               end, c, w2)
      | (inr (inr rc), w2) =>
          let pr := processOutputFiles (cssBundlePathPrefix c)
                      (default [] (outputFiles rc)) w2 in
          let rejection := stylesheetRejection (cssBundlePathPrefix c)
                             (default [] (outputFiles rc)) w2 in
          match appP with
          | inl eA =>
              if cssSettlesFirst o
              then (inl (default eA rejection), c, pr.2)
              else (inl eA, c, w2)
          | inr ra =>
              match rejection with
              | Some eW => (inl eW, c, pr.2)
              | None =>
                  match createAssetsManifest o (remixConfig c)
                          (result_metafile ra) pr.1 with
                  | inl e =>
                      (inl e, set_compilers c ra rc,
                       emit (EvCreateAssetsManifest (remixConfig c)
                               (result_metafile ra) pr.1) pr.2)
                  | inr m =>
                      (inr tt, set_compilers c ra rc,
                       completedWorld o ch (remixConfig c) (result_metafile ra)
                         pr.1 m pr.2)
                  end
              end
          end
      end
  end.
Proof.
  unfold compile.
  destruct (issue App o c w) as [[e | appP] w1]; [reflexivity |].
  destruct (issue Css o c w1) as [[e | [eC | rc]] w2]; [reflexivity | |].
  - destruct appP as [eA | ra]; cbn; [| reflexivity].
    now destruct (cssSettlesFirst o).
  - rewrite cssThen_eq. cbv zeta.
    destruct (stylesheetRejection _ _ w2) as [eW |].
    + destruct appP as [eA | ra]; cbn; [| reflexivity].
      now destruct (cssSettlesFirst o).
    + destruct appP as [eA | ra]; cbn [promiseAll2 default];
        [now destruct (cssSettlesFirst o) |].
      destruct (createAssetsManifest o _ _ _) as [e | m]; [reflexivity |].
      unfold alloc. cbn [heap log disk unwritable emit].
      rewrite (writeAssetsManifest_ok o (remixConfig c) _ _ m).
      * unfold completedWorld. cbn [heap log disk unwritable emit].
        rewrite <- !app_assoc. cbn [app].
        rewrite insert_app_r_alt, Nat.sub_diag by lia. reflexivity.
      * cbn [heap emit]. now rewrite lookup_app_r, Nat.sub_diag by lia.
Qed.
End CompileFacts.

(** ** What [compile] does with the stylesheet build's output *)

Section StylesheetOutputs.
Context `{Runtime}.

Lemma stylesheetWrites_In (prefix : string) (files : list OutputFile)
    (p cont : string) :
  In (EvWriteFile p cont) (stylesheetWrites prefix files)
  <-> exists f, In f files /\ path f = p /\ contents f = cont
                /\ isPersisted prefix f = true.
Proof.
  unfold stylesheetWrites. rewrite in_map_iff. split.
  - intros (f & Heq & Hin). apply filter_In in Hin. destruct Hin as [Hin Hp].
    injection Heq as Hpath Hcont. eauto 6.
  - intros (f & Hin & Hpath & Hcont & Hp). exists f.
    rewrite filter_In. subst. auto.
Qed.

Lemma last_stylesheet (prefix : string) (pre post : list OutputFile)
    (f : OutputFile) :
  isStylesheet prefix f = true ->
  (forall g, In g post -> isStylesheet prefix g = false) ->
  last (List.filter (isStylesheet prefix) (pre ++ f :: post)) = Some f.
Proof.
  intros Hf Hpost. rewrite List.filter_app. cbn [List.filter]. rewrite Hf.
  assert (Hnil : List.filter (isStylesheet prefix) post = []).
  { induction post as [| g post IH]; [reflexivity |]. cbn [List.filter].
    rewrite (Hpost g (or_introl eq_refl)). apply IH.
    intros g' Hg'. apply Hpost. now right. }
  rewrite Hnil. apply last_snoc.
Qed.

Lemma no_stylesheet (prefix : string) (files : list OutputFile) :
  (forall f, In f files -> isStylesheet prefix f = false) ->
  last (List.filter (isStylesheet prefix) files) = None.
Proof.
  intros Hnone. apply last_None.
  induction files as [| g files IH]; [reflexivity |]. cbn [List.filter].
  rewrite (Hnone g (or_introl eq_refl)). apply IH.
  intros g' Hg'. apply Hnone. now right.
Qed.

(** *** Rejected writes *)

Lemma stylesheetRejection_cons (prefix : string) (f : OutputFile)
    (files : list OutputFile) (w : World) :
  stylesheetRejection prefix (f :: files) w
  = match (if isPersisted prefix f then unwritable w !! path f else None) with
    | Some e => Some e
    | None => stylesheetRejection prefix files w
    end.
Proof.
  unfold stylesheetRejection. cbn.
  now destruct (if isPersisted prefix f then unwritable w !! path f else None).
Qed.

(** No write is rejected exactly when the file system accepts the path of
    every persisted file. *)
Lemma stylesheetRejection_None (prefix : string) (files : list OutputFile)
    (w : World) :
  stylesheetRejection prefix files w = None
  <-> forall g, In g files -> isPersisted prefix g = true ->
                unwritable w !! path g = None.
Proof.
  induction files as [| f files IH].
  - split; [intros _ g [] | reflexivity].
  - rewrite stylesheetRejection_cons.
    destruct (isPersisted prefix f) eqn:Ef.
    + destruct (unwritable w !! path f) as [e |] eqn:Eu.
      * split; [discriminate |]. intros Hall.
        specialize (Hall f (or_introl eq_refl) Ef). congruence.
      * rewrite IH. split.
        -- intros Hall g [<- | Hg] Hp; auto.
        -- intros Hall g Hg. apply Hall. now right.
    + rewrite IH. split.
      * intros Hall g [<- | Hg] Hp; [congruence | auto].
      * intros Hall g Hg. apply Hall. now right.
Qed.

(** A rejection is the error the file system gives for a persisted file. *)
Lemma stylesheetRejection_Some (prefix : string) (files : list OutputFile)
    (w : World) (e : Error) :
  stylesheetRejection prefix files w = Some e ->
  exists g, In g files /\ isPersisted prefix g = true
            /\ unwritable w !! path g = Some e.
Proof.
  induction files as [| f files IH]; [discriminate |].
  rewrite stylesheetRejection_cons.
  destruct (isPersisted prefix f) eqn:Ef.
  - destruct (unwritable w !! path f) as [e' |] eqn:Eu.
    + intros Heq. injection Heq as <-. exists f. split; [now left | auto].
    + intros Hrest. destruct (IH Hrest) as (g & Hg & Hp & Hu).
      exists g. split; [now right | auto].
  - intros Hrest. destruct (IH Hrest) as (g & Hg & Hp & Hu).
    exists g. split; [now right | auto].
Qed.

Lemma stylesheetRejection_world (prefix : string) (files : list OutputFile)
    (w w' : World) :
  unwritable w = unwritable w' ->
  stylesheetRejection prefix files w = stylesheetRejection prefix files w'.
Proof. intros Hu. unfold stylesheetRejection. now rewrite Hu. Qed.

(** *** The disk after the post-processing *)

Lemma fold_insert_other (files : list OutputFile) (p : string) :
  forall d : gmap string string,
    (forall f, In f files -> path f <> p) ->
    fold_left (fun d f => <[path f := contents f]> d) files d !! p = d !! p.
Proof.
  induction files as [| f files IH]; intros d Hother; [reflexivity |].
  cbn [fold_left]. rewrite IH.
  - apply lookup_insert_ne. apply Hother. now left.
  - intros g Hg. apply Hother. now right.
Qed.

Lemma fold_insert_last (pre post : list OutputFile) (f : OutputFile)
    (d : gmap string string) :
  (forall g, In g post -> path g <> path f) ->
  fold_left (fun d f => <[path f := contents f]> d) (pre ++ f :: post) d
    !! path f = Some (contents f).
Proof.
  intros Hpost. rewrite fold_left_app. cbn [fold_left].
  rewrite fold_insert_other by exact Hpost. apply lookup_insert_eq.
Qed.


(** The disk once the callback has run on every file: the accepted writes,
    in the order of the files. *)
Lemma processOutputFiles_disk_eq (prefix : string) (files : list OutputFile)
    (w : World) :
  disk (processOutputFiles prefix files w).2
  = fold_left (fun d f => <[path f := contents f]> d)
              (List.filter (isWritten prefix (unwritable w)) files) (disk w).
Proof.
  rewrite processOutputFiles_fold.
  now destruct (fold_processOutputFile prefix files None w) as (_ & _ & Hd & _).
Qed.

Lemma isWritten_iff (prefix : string) (refused : gmap string Error)
    (f : OutputFile) :
  isWritten prefix refused f = true
  <-> isPersisted prefix f = true /\ refused !! path f = None.
Proof.
  unfold isWritten. rewrite andb_true_iff, bool_decide_eq_true. tauto.
Qed.

Lemma processOutputFiles_disk (prefix : string) (files : list OutputFile)
    (w : World) (p : string) :
  (forall f, In f files -> isPersisted prefix f = true -> path f <> p) ->
  disk (processOutputFiles prefix files w).2 !! p = disk w !! p.
Proof.
  intros Hother. rewrite processOutputFiles_disk_eq. apply fold_insert_other.
  intros f Hf. apply filter_In in Hf. destruct Hf as [Hf Hw].
  apply isWritten_iff in Hw. now apply Hother.
Qed.

Lemma processOutputFiles_refused (prefix : string) (files : list OutputFile)
    (w : World) (p : string) (e : Error) :
  unwritable w !! p = Some e ->
  disk (processOutputFiles prefix files w).2 !! p = disk w !! p.
Proof.
  intros Hp. rewrite processOutputFiles_disk_eq. apply fold_insert_other.
  intros f Hf. apply filter_In in Hf. destruct Hf as [Hf Hw].
  apply isWritten_iff in Hw. destruct Hw as [_ Hw]. congruence.
Qed.

Lemma processOutputFiles_written (prefix : string) (pre post : list OutputFile)
    (f : OutputFile) (w : World) :
  isPersisted prefix f = true ->
  unwritable w !! path f = None ->
  (forall g, In g post -> isPersisted prefix g = true -> path g <> path f) ->
  disk (processOutputFiles prefix (pre ++ f :: post) w).2 !! path f
  = Some (contents f).
Proof.
  intros Hf Hok Hpost. rewrite processOutputFiles_disk_eq, List.filter_app.
  cbn [List.filter].
  assert (Hw : isWritten prefix (unwritable w) f = true)
    by (apply isWritten_iff; auto).
  rewrite Hw. apply fold_insert_last.
  intros g Hg. apply filter_In in Hg. destruct Hg as [Hg Hgw].
  apply isWritten_iff in Hgw. apply Hpost; tauto.
Qed.


(** *** The world once the call has settled *)

Lemma compileSettled_eq (o : Oracle) (ch : WriteChannel) (c : BrowserCompiler)
    (w w1 w2 : World) (appP : Result BuildIncremental) (rc : BuildIncremental) :
  issue App o c w = (inr appP, w1) ->
  issue Css o c w1 = (inr (inr rc), w2) ->
  compileSettled o ch c w
  = match appP with
    | inl _ => (processOutputFiles (cssBundlePathPrefix c)
                  (default [] (outputFiles rc)) w2).2
    | inr _ => (compile o ch c w).2
    end.
Proof.
  intros Happ Hcss. unfold compileSettled. rewrite Happ.
  destruct appP as [eA | ra]; [| reflexivity].
  rewrite Hcss. destruct (cssSettlesFirst o) eqn:Eflag.
  - rewrite compile_eq, Happ, Hcss. cbv zeta. now rewrite Eflag.
  - now rewrite cssThen_eq.
Qed.


(** What a call leaves once both operations are issued and the stylesheet
    build has returned: the writes of the callback, then the rest of
    [compile], which is empty unless the application build succeeded and no
    write was rejected. *)
Lemma compileSettled_shape (o : Oracle) (ch : WriteChannel)
    (c : BrowserCompiler) (w w1 w2 : World)
    (appP : Result BuildIncremental) (rc : BuildIncremental) :
  issue App o c w = (inr appP, w1) ->
  issue Css o c w1 = (inr (inr rc), w2) ->
  let prefix := cssBundlePathPrefix c in
  let files := default [] (outputFiles rc) in
  let pr := processOutputFiles prefix files w2 in
  exists rest : list Event,
    log (compileSettled o ch c w) = log w2 ++ stylesheetWrites prefix files ++ rest
    /\ (forall p, (forall cont, ~ In (EvWriteFileSafe p cont) rest) ->
          disk (compileSettled o ch c w) !! p = disk pr.2 !! p)
    /\ (forall cfg mf css, In (EvCreateAssetsManifest cfg mf css) rest ->
          css = pr.1)
    /\ (forall p cont, ~ In (EvWriteFile p cont) rest)
    /\ match appP with
       | inl _ => rest = [] /\ exists e, (compile o ch c w).1 = (inl e, c)
       | inr ra =>
           match stylesheetRejection prefix files w2 with
           | Some e => rest = [] /\ (compile o ch c w).1 = (inl e, c)
           | None =>
               In (EvCreateAssetsManifest (remixConfig c) (result_metafile ra) pr.1)
                  rest
           end
       end.
Proof.
  intros Happ Hcss prefix files pr.
  destruct (processOutputFiles_facts prefix files w2) as (_ & Hlog & _).
  fold (stylesheetWrites prefix files) in Hlog. fold pr in Hlog.
  rewrite (compileSettled_eq o ch c w w1 w2 appP rc Happ Hcss).
  fold prefix files pr.
  rewrite compile_eq, Happ, Hcss. cbv zeta. fold prefix files pr.
  destruct appP as [eA | ra].
  { exists []. rewrite app_nil_r.
    split; [exact Hlog |]. split; [reflexivity |].
    split; [intros ? ? ? [] |]. split; [intros ? ? [] |].
    split; [reflexivity |]. destruct (cssSettlesFirst o); eauto. }
  destruct (stylesheetRejection prefix files w2) as [eW |].
  { exists []. cbn [fst snd]. rewrite app_nil_r.
    split; [exact Hlog |]. split; [reflexivity |].
    split; [intros ? ? ? [] |]. split; [intros ? ? [] |]. auto. }
  destruct (createAssetsManifest o _ _ _) as [e | m].
  - exists [EvCreateAssetsManifest (remixConfig c) (result_metafile ra) pr.1].
    cbn [fst snd emit log disk]. rewrite Hlog, <- app_assoc.
    split; [reflexivity |]. split; [reflexivity |]. split.
    { intros cfg mf css [Hin | []]. now injection Hin as _ _ <-. }
    split; [intros p cont [Hin | []]; discriminate Hin |]. now left.
  - exists [EvCreateAssetsManifest (remixConfig c) (result_metafile ra) pr.1;
            EvChannelWrite ch (List.length (heap pr.2));
            EvWriteFileSafe
              (path_join (assetsBuildDirectory (remixConfig c)) (manifestFilename m))
              ("window.__remixManifest="
                 +:+ JSON_stringify o
                       (set_url m (publicPath (remixConfig c) +:+ manifestFilename m))
                 +:+ ";")].
    cbn [fst snd]. unfold completedWorld. cbn [log disk].
    rewrite Hlog, <- app_assoc.
    split; [reflexivity |]. split.
    { intros p Hp. apply lookup_insert_ne. intros <-.
      eapply Hp. right. right. left. reflexivity. }
    split.
    { intros cfg mf css [Hin | [Hin | [Hin | []]]]; try discriminate Hin.
      now injection Hin as _ _ <-. }
    split; [intros p cont [Hin | [Hin | [Hin | []]]]; discriminate Hin |].
    now left.
Qed.

(** C2. Once both operations are issued and the stylesheet build has
    returned [rc], the call issues, right after the two calls into the
    engine, one [fs.writeFile] per emitted file under the css-bundle prefix
    that ends in [.css] or [.css.map], with the file's own path and
    contents, and no other file write: a file under another prefix is not
    written. On disk, the path of such a file holds the file's contents
    once the call has settled, provided the file system accepts the path
    and no later file of the kind has the same path; a path of no such file
    is left as it was. The path of a [.css] file under the prefix is what
    [cssBundlePath] holds once the callback has run on it. When the
    application build succeeds and no write is rejected, the manifest
    builder receives the path of the last such file, or [undefined] when
    there is none. When a write is rejected, [compile] fails, keeps its
    handles and does not call the manifest builder. *)
Theorem compile_stylesheet_outputs (o : Oracle) (ch : WriteChannel)
    (c : BrowserCompiler) (w w1 w2 : World)
    (appP : Result BuildIncremental) (rc : BuildIncremental) :
  issue App o c w = (inr appP, w1) ->
  issue Css o c w1 = (inr (inr rc), w2) ->
  let prefix := cssBundlePathPrefix c in
  let files := default [] (outputFiles rc) in
  let settled := compileSettled o ch c w in
  let accepted :=
    forall g, In g files -> startsWith (path g) prefix = true ->
              endsWith (path g) ".css" = true \/ endsWith (path g) ".css.map" = true ->
              unwritable w2 !! path g = None in
  exists writes rest : list Event,
    log settled = log w2 ++ writes ++ rest
    /\ writes = stylesheetWrites prefix files
    /\ (forall f, In f files -> startsWith (path f) prefix = true ->
                  endsWith (path f) ".css" = true ->
                  In (EvWriteFile (path f) (contents f)) writes)
    /\ (forall f, In f files -> startsWith (path f) prefix = true ->
                  endsWith (path f) ".css.map" = true ->
                  In (EvWriteFile (path f) (contents f)) writes)
    /\ (forall p cont, In (EvWriteFile p cont) (writes ++ rest) ->
          exists f, In f files /\ path f = p /\ contents f = cont
                    /\ startsWith p prefix = true
                    /\ (endsWith p ".css" = true \/ endsWith p ".css.map" = true))
    /\ (forall pre f post, files = pre ++ f :: post ->
          startsWith (path f) prefix = true ->
          endsWith (path f) ".css" = true \/ endsWith (path f) ".css.map" = true ->
          unwritable w2 !! path f = None ->
          (forall g, In g post -> isPersisted prefix g = true -> path g <> path f) ->
          (forall cont, ~ In (EvWriteFileSafe (path f) cont) rest) ->
          disk settled !! path f = Some (contents f))
    /\ (forall p,
          (forall g, In g files -> startsWith (path g) prefix = true ->
             endsWith (path g) ".css" = true \/ endsWith (path g) ".css.map" = true ->
             path g <> p) ->
          (forall cont, ~ In (EvWriteFileSafe p cont) rest) ->
          disk settled !! p = disk w2 !! p)
    /\ (forall pre f post, files = pre ++ f :: post ->
          startsWith (path f) prefix = true -> endsWith (path f) ".css" = true ->
          (processOutputFiles prefix (pre ++ [f]) w2).1 = Some (path f)
          /\ ((forall g, In g post -> isStylesheet prefix g = false) ->
              forall ra, appP = inr ra -> accepted ->
                In (EvCreateAssetsManifest (remixConfig c) (result_metafile ra)
                      (Some (path f))) rest))
    /\ ((forall f, In f files -> isStylesheet prefix f = false) ->
        (forall cfg mf css, In (EvCreateAssetsManifest cfg mf css) rest ->
                            css = None)
        /\ forall ra, appP = inr ra -> accepted ->
             In (EvCreateAssetsManifest (remixConfig c) (result_metafile ra) None)
                rest)
    /\ (forall g e, In g files -> startsWith (path g) prefix = true ->
          endsWith (path g) ".css" = true \/ endsWith (path g) ".css.map" = true ->
          unwritable w2 !! path g = Some e ->
          rest = []
          /\ exists e', (compile o ch c w).1 = (inl e', c)
               /\ forall ra, appP = inr ra ->
                    exists g', In g' files /\ isPersisted prefix g' = true
                               /\ unwritable w2 !! path g' = Some e').
Proof.
  intros Happ Hcss prefix files settled accepted.
  destruct (processOutputFiles_facts prefix files w2) as (_ & _ & Hpath).
  destruct (compileSettled_shape o ch c w w1 w2 appP rc Happ Hcss)
    as (rest & Hlog & Hdisk & Hbuilder & Hnowrite & Hrest).
  cbv zeta in Hlog, Hdisk, Hbuilder, Hrest. subst settled.
  fold prefix files in Hlog, Hdisk, Hbuilder, Hrest.
  set (pr := processOutputFiles prefix files w2) in *.
  assert (Haccepted : accepted -> stylesheetRejection prefix files w2 = None).
  { intros Hacc. apply stylesheetRejection_None. intros g Hg Hp.
    apply isPersisted_iff in Hp. destruct Hp as [Hp1 Hp2]. now apply Hacc. }
  exists (stylesheetWrites prefix files), rest.
  split; [exact Hlog |]. split; [reflexivity |].
  split.
  { intros f Hin Hpre Hsuf. apply stylesheetWrites_In. exists f.
    repeat split; [exact Hin |]. apply isPersisted_iff. auto. }
  split.
  { intros f Hin Hpre Hsuf. apply stylesheetWrites_In. exists f.
    repeat split; [exact Hin |]. apply isPersisted_iff. auto. }
  split.
  { intros p cont Hin. apply in_app_or in Hin.
    destruct Hin as [Hin | Hin]; [| now contradiction (Hnowrite p cont)].
    apply stylesheetWrites_In in Hin.
    destruct Hin as (f & Hin & Hp & Hc & Hpers).
    apply isPersisted_iff in Hpers. rewrite Hp in Hpers. exists f. tauto. }
  split.
  { intros pre f post Hfiles Hpre Hsuf Hok Hpost Hsafe.
    rewrite (Hdisk _ Hsafe). unfold pr. rewrite Hfiles.
    apply processOutputFiles_written; [| exact Hok | exact Hpost].
    apply isPersisted_iff. auto. }
  split.
  { intros p Hother Hsafe. rewrite (Hdisk _ Hsafe). unfold pr.
    apply processOutputFiles_disk. intros g Hg Hp.
    apply isPersisted_iff in Hp. destruct Hp as [Hp1 Hp2]. now apply Hother. }
  split.
  { intros pre f post Hfiles Hpre Hsuf.
    assert (Hf : isStylesheet prefix f = true)
      by (unfold isStylesheet; now rewrite Hpre, Hsuf).
    split.
    - destruct (processOutputFiles_facts prefix (pre ++ [f]) w2) as (_ & _ & ->).
      rewrite (last_stylesheet prefix pre [] f); [reflexivity | exact Hf |].
      intros g [].
    - intros Hpost ra -> Hacc. rewrite (Haccepted Hacc) in Hrest.
      replace (Some (path f)) with pr.1; [exact Hrest |].
      rewrite Hpath, Hfiles.
      now rewrite (last_stylesheet prefix pre post f). }
  split.
  { intros Hno.
    assert (Hnone : pr.1 = None).
    { rewrite Hpath, no_stylesheet; [reflexivity | exact Hno]. }
    split.
    - intros cfg mf css Hin. rewrite <- Hnone. eapply Hbuilder; eauto.
    - intros ra -> Hacc. rewrite (Haccepted Hacc) in Hrest.
      now rewrite <- Hnone. }
  intros g e Hg Hpre Hsuf Hrefused.
  destruct (stylesheetRejection prefix files w2) as [eW |] eqn:Erej.
  2:{ assert (Hnone : unwritable w2 !! path g = None).
      { apply (proj1 (stylesheetRejection_None prefix files w2) Erej g Hg).
        apply isPersisted_iff. auto. }
      congruence. }
  destruct appP as [eA | ra].
  - destruct Hrest as [-> (e' & He')]. split; [reflexivity |].
    exists e'. split; [exact He' |]. intros ra Hra. discriminate Hra.
  - destruct Hrest as [-> He']. split; [reflexivity |].
    exists eW. split; [exact He' |]. intros _ _.
    now apply stylesheetRejection_Some.
Qed.
End StylesheetOutputs.

(** ** Failing builds *)

Section Failure.
Context `{Runtime}.





End Failure.

(** ** Incremental handles *)

Section Handles.
Context `{Runtime}.

Lemma stylesheetWrites_not_engine (prefix : string) (files : list OutputFile)
    (ev : Event) :
  In ev (stylesheetWrites prefix files) ->
  isFullBuild ev = false /\ isRebuild ev = false.
Proof.
  unfold stylesheetWrites. rewrite in_map_iff. intros (f & <- & _). auto.
Qed.

(** After the two operations are issued: the rest of the call does not
    enter the engine again, and the handles are replaced exactly when both
    operations succeed and no stylesheet write is rejected. *)
Lemma compile_after_issue (o : Oracle) (ch : WriteChannel)
    (c : BrowserCompiler) (w : World) (evA evC : Event)
    (appP cssP : Result BuildIncremental) :
  issue App o c w = (inr appP, emit evA w) ->
  issue Css o c (emit evA w) = (inr cssP, emit evC (emit evA w)) ->
  exists rest : list Event,
    log (compile o ch c w).2 = log w ++ evA :: evC :: rest
    /\ (forall ev, In ev rest -> isFullBuild ev = false /\ isRebuild ev = false)
    /\ (compile o ch c w).1.2
       = match appP, cssP with
         | inr ra, inr rc =>
             match stylesheetRejection (cssBundlePathPrefix c)
                     (default [] (outputFiles rc)) w with
             | None => set_compilers c ra rc
             | Some _ => c
             end
         | _, _ => c
         end.
Proof.
  intros EA EC. rewrite compile_eq, EA, EC.
  destruct cssP as [eC | rc].
  { exists []. cbn [fst snd emit log]. rewrite <- app_assoc.
    split; [reflexivity |]. split; [intros ev [] |]. now destruct appP. }
  cbv zeta.
  rewrite (stylesheetRejection_world _ _ (emit evC (emit evA w)) w eq_refl).
  destruct (processOutputFiles_facts (cssBundlePathPrefix c)
              (default [] (outputFiles rc)) (emit evC (emit evA w)))
    as (_ & Hlog & _).
  fold (stylesheetWrites (cssBundlePathPrefix c) (default [] (outputFiles rc))) in Hlog.
  cbn [emit log] in Hlog.
  destruct appP as [eA | ra].
  { destruct (cssSettlesFirst o).
    - eexists. cbn [fst snd]. rewrite Hlog, <- !app_assoc.
      split; [reflexivity |]. split; [| reflexivity].
      apply stylesheetWrites_not_engine.
    - exists []. cbn [fst snd emit log]. rewrite <- app_assoc.
      split; [reflexivity |]. split; [intros ev [] | reflexivity]. }
  destruct (stylesheetRejection _ _ w) as [eW |].
  { eexists. cbn [fst snd]. rewrite Hlog, <- !app_assoc.
    split; [reflexivity |]. split; [| reflexivity].
    apply stylesheetWrites_not_engine. }
  destruct (createAssetsManifest o _ _ _) as [e | m].
  - eexists. cbn [fst snd emit log]. rewrite Hlog, <- !app_assoc.
    split; [reflexivity |]. split; [| reflexivity].
    intros ev Hev. apply in_app_or in Hev.
    destruct Hev as [Hev | [<- | []]]; [| auto].
    eapply stylesheetWrites_not_engine; eauto.
  - eexists. cbn [fst snd]. unfold completedWorld. cbn [log].
    rewrite Hlog, <- !app_assoc.
    split; [reflexivity |]. split; [| reflexivity].
    intros ev Hev. apply in_app_or in Hev.
    destruct Hev as [Hev | [<- | [<- | [<- | []]]]]; auto.
    eapply stylesheetWrites_not_engine; eauto.
Qed.

Lemma compile_keeps_or_replaces (o : Oracle) (ch : WriteChannel)
    (c : BrowserCompiler) (w : World) :
  (compile o ch c w).1.2 = c
  \/ exists ra rc, (compile o ch c w).1.2 = set_compilers c ra rc.
Proof.
  rewrite compile_eq.
  destruct (issue App o c w) as [[e | appP] w1]; [now left |].
  destruct (issue Css o c w1) as [[e | [eC | rc]] w2]; [now left .. |].
  cbv zeta. destruct appP as [eA | ra];
    [destruct (cssSettlesFirst o); now left |].
  destruct (stylesheetRejection _ _ _); [now left |].
  destruct (createAssetsManifest o _ _ _); right; eauto.
Qed.

Lemma reachable_invariant (cfg : RemixConfig) (opts : CompileOptions)
    (c : BrowserCompiler) :
  reachable cfg opts c ->
  remixConfig c = cfg /\ options c = opts
  /\ (appCompiler c = None <-> cssCompiler c = None).
Proof.
  induction 1 as [| o ch c w Hreach (Hcfg & Hopts & Hpair)].
  - cbn. tauto.
  - destruct (compile_keeps_or_replaces o ch c w) as [-> | (ra & rc & ->)];
      [tauto |].
    cbn. repeat split; try assumption; discriminate.
Qed.


Lemma heldHandles_le (c : BrowserCompiler) (build : BuildTarget) :
  List.length (heldHandles c build) <= 1.
Proof. unfold heldHandles. destruct (compilerOf c build); cbn; lia. Qed.

Lemma compileAll_reachable (cfg : RemixConfig) (opts : CompileOptions)
    (calls : list (Oracle * WriteChannel)) :
  forall c w, reachable cfg opts c -> reachable cfg opts (compileAll calls c w).1.
Proof.
  induction calls as [| [o ch] calls IH]; intros c w Hc; [exact Hc |].
  cbn [compileAll].
  pose proof (reachable_compile cfg opts o ch c w Hc) as Hstep.
  destruct (compile o ch c w) as [[r c'] w']. apply IH. exact Hstep.
Qed.

Lemma compileAll_app (calls1 calls2 : list (Oracle * WriteChannel)) :
  forall c w,
    compileAll (calls1 ++ calls2) c w
    = compileAll calls2 (compileAll calls1 c w).1 (compileAll calls1 c w).2.
Proof.
  induction calls1 as [| [o ch] calls1 IH]; intros c w; [reflexivity |].
  cbn [compileAll app]. destruct (compile o ch c w) as [[r c'] w']. apply IH.
Qed.

Lemma compileAll_keeps_handle (calls : list (Oracle * WriteChannel)) :
  forall c w, appCompiler c <> None -> appCompiler (compileAll calls c w).1 <> None.
Proof.
  induction calls as [| [o ch] calls IH]; intros c w Hc; [exact Hc |].
  cbn [compileAll].
  pose proof (compile_keeps_or_replaces o ch c w) as Hstep.
  destruct (compile o ch c w) as [[r c'] w']. apply IH.
  cbn in Hstep. destruct Hstep as [-> | (ra & rc & ->)]; [exact Hc | discriminate].
Qed.

(** C4, as the code has it. In the state reached by any sequence of
    [compile] calls on a fresh compiler there is at most one handle per
    target, and the next call does one of two things. While no handle is
    stored (the first call, or no earlier call had both operations succeed)
    it issues, once the configuration is assembled, a full build per target
    with [metafile] and [incremental] set, and nothing else enters the
    engine. Once handles are stored it calls [rebuild] on the stored handle
    of each target and issues no full build. Either way the stored handles
    become the two results when both operations succeed and no write of a
    stylesheet file is rejected, and stay as they were otherwise; and after
    a call whose two operations succeed and whose stylesheet writes are
    accepted, handles are stored for good. *)
Theorem compile_sequence_handles (cfg : RemixConfig) (opts : CompileOptions)
    (calls : list (Oracle * WriteChannel)) (w0 : World)
    (o : Oracle) (ch : WriteChannel) :
  let c := (compileAll calls (createBrowserCompiler cfg opts) w0).1 in
  let w := (compileAll calls (createBrowserCompiler cfg opts) w0).2 in
  (forall build, List.length (heldHandles c build) <= 1)
  /\ (forall build, List.length (heldHandles (compile o ch c w).1.2 build) <= 1)
  /\ (calls = [] -> appCompiler c = None /\ cssCompiler c = None)
  /\ (appCompiler c = None ->
      cssCompiler c = None
      /\ forall confA confC,
          createEsbuildConfig App cfg opts = inr confA ->
          createEsbuildConfig Css cfg opts = inr confC ->
          let optsA := fullBuildOptions App confA in
          let optsC := fullBuildOptions Css confC in
          metafile optsA = Some true /\ incremental optsA = Some true
          /\ metafile optsC = Some true /\ incremental optsC = Some true
          /\ exists rest,
               log (compile o ch c w).2 = log w ++ EvBuild optsA :: EvBuild optsC :: rest
               /\ (forall ev, In ev rest -> isFullBuild ev = false /\ isRebuild ev = false)
               /\ (compile o ch c w).1.2
                  = match esbuild_build o optsA, esbuild_build o optsC with
                    | inr ra, inr rc =>
                        match stylesheetRejection (cssBundlePathPrefix c)
                                (default [] (outputFiles rc)) w with
                        | None => set_compilers c ra rc
                        | Some _ => c
                        end
                    | _, _ => c
                    end)
  /\ (forall ha, appCompiler c = Some ha ->
      exists hc rest,
        cssCompiler c = Some hc
        /\ log (compile o ch c w).2 = log w ++ EvRebuild ha :: EvRebuild hc :: rest
        /\ (forall ev, In ev rest -> isFullBuild ev = false /\ isRebuild ev = false)
        /\ (compile o ch c w).1.2
           = match esbuild_rebuild o ha, esbuild_rebuild o hc with
             | inr ra, inr rc =>
                 match stylesheetRejection (cssBundlePathPrefix c)
                         (default [] (outputFiles rc)) w with
                 | None => set_compilers c ra rc
                 | Some _ => c
                 end
             | _, _ => c
             end)
  /\ (forall rc : BuildIncremental,
        stylesheetRejection (cssBundlePathPrefix c) (default [] (outputFiles rc)) w
        = None
        <-> forall g, In g (default [] (outputFiles rc)) ->
              startsWith (path g) (cssBundlePathPrefix c) = true ->
              endsWith (path g) ".css" = true \/ endsWith (path g) ".css.map" = true ->
              unwritable w !! path g = None)
  /\ (forall calls1 o1 ch1 calls2 ra rc w1 w2,
        calls = calls1 ++ (o1, ch1) :: calls2 ->
        let c1 := (compileAll calls1 (createBrowserCompiler cfg opts) w0).1 in
        let wc1 := (compileAll calls1 (createBrowserCompiler cfg opts) w0).2 in
        issue App o1 c1 wc1 = (inr (inr ra), w1) ->
        issue Css o1 c1 w1 = (inr (inr rc), w2) ->
        (forall g, In g (default [] (outputFiles rc)) ->
           startsWith (path g) (cssBundlePathPrefix c1) = true ->
           endsWith (path g) ".css" = true \/ endsWith (path g) ".css.map" = true ->
           unwritable wc1 !! path g = None) ->
        appCompiler c <> None).
Proof.
  intros c w.
  assert (Hreach : reachable cfg opts c)
    by (apply compileAll_reachable; constructor).
  destruct (reachable_invariant cfg opts c Hreach) as (Hcfg & Hopts & Hpair).
  split; [intros build; apply heldHandles_le |].
  split; [intros build; apply heldHandles_le |].
  split; [intros ->; cbn; auto |].
  split; [| split; [| split]].
  - intros Hnone. split; [now apply Hpair |].
    intros confA confC HconfA HconfC optsA optsC.
    do 4 (split; [now destruct confA, confC |]).
    apply compile_after_issue.
    + apply issue_full; [exact Hnone | now rewrite Hcfg, Hopts].
    + apply issue_full; [now apply Hpair | now rewrite Hcfg, Hopts].
  - intros ha Hha.
    destruct (cssCompiler c) as [hc |] eqn:Ehc.
    2:{ assert (appCompiler c = None) by now apply Hpair. congruence. }
    exists hc. 
    destruct (compile_after_issue o ch c w (EvRebuild ha) (EvRebuild hc)
                (esbuild_rebuild o ha) (esbuild_rebuild o hc))
      as (rest & Hlog & Hrest & Hc').
    + now apply issue_rebuild.
    + now apply issue_rebuild.
    + exists rest. auto.
  - intros rc. rewrite stylesheetRejection_None. split.
    + intros Hall g Hg Hpre Hsuf. apply Hall; [exact Hg |].
      apply isPersisted_iff. auto.
    + intros Hall g Hg Hp. apply isPersisted_iff in Hp.
      destruct Hp as [Hpre Hsuf]. now apply Hall.
  - intros calls1 o1 ch1 calls2 ra rc w1 w2 Hcalls c1 wc1 EA EC Haccepted.
    unfold c. rewrite Hcalls.
    change (calls1 ++ (o1, ch1) :: calls2) with (calls1 ++ [(o1, ch1)] ++ calls2).
    rewrite compileAll_app, compileAll_app. apply compileAll_keeps_handle.
    fold c1 wc1. cbn [compileAll].
    assert (Hc1 : (compile o1 ch1 c1 wc1).1.2 = set_compilers c1 ra rc).
    { assert (Hw2 : unwritable w2 = unwritable wc1).
      { destruct (issue_world App o1 c1 wc1) as [(e & Ee) | (p & ev & Ee & _)];
          rewrite Ee in EA; [discriminate EA |]. injection EA as _ <-.
        destruct (issue_world Css o1 c1 (emit ev wc1))
          as [(e & Ee') | (p' & ev' & Ee' & _)];
          rewrite Ee' in EC; [discriminate EC |]. now injection EC as _ <-. }
      assert (Hrej : stylesheetRejection (cssBundlePathPrefix c1)
                       (default [] (outputFiles rc)) w2 = None).
      { apply stylesheetRejection_None. intros g Hg Hp.
        apply isPersisted_iff in Hp. destruct Hp as [Hpre Hsuf].
        rewrite Hw2. now apply Haccepted. }
      rewrite compile_eq, EA, EC. cbv zeta. rewrite Hrej.
      now destruct (createAssetsManifest o1 _ _ _). }
    destruct (compile o1 ch1 c1 wc1) as [[r c'] w'] eqn:E.
    cbn in Hc1. subst c'. cbn. discriminate.
Qed.
End Handles.

(** ** The manifest of a successful compile *)

Section Manifest.
Context `{Runtime}.

Lemma compile_ok_inv (o : Oracle) (ch : WriteChannel) (c c' : BrowserCompiler)
    (w w' : World) :
  compile o ch c w = (inr tt, c', w') ->
  exists evA evC ra rc m,
    issue App o c w = (inr (inr ra), emit evA w)
    /\ issue Css o c (emit evA w) = (inr (inr rc), emit evC (emit evA w))
    /\ (isFullBuild evA || isRebuild evA) = true
    /\ (isFullBuild evC || isRebuild evC) = true
    /\ let pr := processOutputFiles (cssBundlePathPrefix c)
                   (default [] (outputFiles rc)) (emit evC (emit evA w)) in
       createAssetsManifest o (remixConfig c) (result_metafile ra) pr.1 = inr m
       /\ c' = set_compilers c ra rc
       /\ w' = completedWorld o ch (remixConfig c) (result_metafile ra) pr.1 m pr.2
       /\ stylesheetRejection (cssBundlePathPrefix c)
            (default [] (outputFiles rc)) w = None.
Proof.
  rewrite compile_eq.
  destruct (issue_world App o c w) as [(eA & EA) | (appP & evA & EA & HevA)];
    rewrite EA; [discriminate |].
  destruct (issue_world Css o c (emit evA w)) as [(eC & EC) | (cssP & evC & EC & HevC)];
    rewrite EC; [discriminate |].
  destruct cssP as [eC | rc]; [now destruct appP |]. cbv zeta.
  rewrite (stylesheetRejection_world _ _ (emit evC (emit evA w)) w eq_refl).
  destruct appP as [eA | ra]; [now destruct (cssSettlesFirst o) |].
  destruct (stylesheetRejection _ _ w) as [eW |] eqn:Erej; [discriminate |].
  destruct (createAssetsManifest o _ _ _) as [e | m] eqn:Ebuilder; [discriminate |].
  intros Heq. injection Heq as <- <-.
  exists evA, evC, ra, rc, m. auto 10.
Qed.

(** C5. A [compile] that succeeds ends by writing the manifest file: the
    file is [manifest-<VERSION>.js], [<VERSION>] being the upper-cased
    version of the manifest the builder returned, joined to the assets
    build directory; its content is [window.__remixManifest=<JSON>;] where
    [<JSON>] serialises the manifest with its [url] already set to the
    public path followed by the file name; it is the only [writeFileSafe]
    of the call and the disk holds that content at that path. *)
Theorem compile_persists_manifest (o : Oracle) (ch : WriteChannel)
    (c c' : BrowserCompiler) (w w' : World) :
  compile o ch c w = (inr tt, c', w') ->
  exists (mf : option Metafile) (css : option string) (m : AssetsManifest)
         (pre : list Event),
    createAssetsManifest o (remixConfig c) mf css = inr m
    /\ let filename := "manifest-" +:+ toUpperCase (version m) +:+ ".js" in
       let serialized :=
         set_url m (publicPath (remixConfig c) +:+ filename) in
       let file := path_join (assetsBuildDirectory (remixConfig c)) filename in
       let content :=
         "window.__remixManifest=" +:+ JSON_stringify o serialized +:+ ";" in
       log w' = log w ++ pre ++ [EvWriteFileSafe file content]
       /\ (forall p cont, ~ In (EvWriteFileSafe p cont) pre)
       /\ disk w' !! file = Some content
       /\ url serialized = Some (publicPath (remixConfig c) +:+ filename)
       /\ version serialized = version m /\ fields serialized = fields m.
Proof.
  intros Hok.
  destruct (compile_ok_inv o ch c c' w w' Hok)
    as (evA & evC & ra & rc & m & EA & EC & HevA & HevC & Hm & _ & -> & _).
  set (pr := processOutputFiles _ _ _) in *.
  destruct (processOutputFiles_facts (cssBundlePathPrefix c)
              (default [] (outputFiles rc)) (emit evC (emit evA w)))
    as (_ & Hlog & _).
  fold pr in Hlog. cbn [emit log] in Hlog.
  fold (stylesheetWrites (cssBundlePathPrefix c) (default [] (outputFiles rc))) in Hlog.
  exists (result_metafile ra), pr.1, m,
    (evA :: evC :: stylesheetWrites (cssBundlePathPrefix c) (default [] (outputFiles rc))
       ++ [ EvCreateAssetsManifest (remixConfig c) (result_metafile ra) pr.1;
            EvChannelWrite ch (List.length (heap pr.2)) ]).
  split; [exact Hm |]. cbv zeta.
  unfold completedWorld, manifestFilename. cbn [log disk].
  split; [rewrite Hlog; list_normal; reflexivity |].
  split.
  { intros p cont [Hin | [Hin | Hin]].
    - subst evA. discriminate HevA.
    - subst evC. discriminate HevC.
    - apply in_app_or in Hin. destruct Hin as [Hin | [Hin | [Hin | []]]];
        [| discriminate Hin ..].
      unfold stylesheetWrites in Hin. apply in_map_iff in Hin.
      destruct Hin as (f & Hf & _). discriminate Hf. }
  split; [apply lookup_insert_eq |]. auto.
Qed.

(** C9. A [compile] that succeeds writes to the channel it was given
    exactly once. What it writes is a reference to the manifest object the
    builder returned during the call; [writeAssetsManifest] then sets the
    [url] of that same object, so that when [compile] returns the
    published object has its [url] equal to the public path followed by
    the manifest file name, and it is the object whose serialisation the
    manifest file holds. *)
Theorem compile_publishes_manifest (o : Oracle) (ch : WriteChannel)
    (c c' : BrowserCompiler) (w w' : World) :
  compile o ch c w = (inr tt, c', w') ->
  exists (ref : nat) (built m : AssetsManifest) (mf : option Metafile)
         (css : option string) (pre post : list Event),
    log w' = log w ++ pre ++ [EvChannelWrite ch ref] ++ post
    /\ (forall ch' ref', ~ In (EvChannelWrite ch' ref') (pre ++ post))
    /\ createAssetsManifest o (remixConfig c) mf css = inr built
    /\ m = set_url built (publicPath (remixConfig c) +:+ manifestFilename built)
    /\ heap w !! ref = None
    /\ heap w' !! ref = Some m
    /\ url m = Some (publicPath (remixConfig c) +:+ manifestFilename m)
    /\ manifestFilename m = "manifest-" +:+ toUpperCase (version m) +:+ ".js"
    /\ post = [EvWriteFileSafe
                 (path_join (assetsBuildDirectory (remixConfig c)) (manifestFilename m))
                 ("window.__remixManifest=" +:+ JSON_stringify o m +:+ ";")].
Proof.
  intros Hok.
  destruct (compile_ok_inv o ch c c' w w' Hok)
    as (evA & evC & ra & rc & m & EA & EC & HevA & HevC & Hm & _ & -> & _).
  set (pr := processOutputFiles _ _ _) in *.
  destruct (processOutputFiles_facts (cssBundlePathPrefix c)
              (default [] (outputFiles rc)) (emit evC (emit evA w)))
    as (Hheap & Hlog & _).
  fold pr in Hlog, Hheap. cbn [emit log heap] in Hlog, Hheap.
  fold (stylesheetWrites (cssBundlePathPrefix c) (default [] (outputFiles rc))) in Hlog.
  exists (List.length (heap pr.2)), m,
    (set_url m (publicPath (remixConfig c) +:+ manifestFilename m)),
    (result_metafile ra), pr.1,
    (evA :: evC :: stylesheetWrites (cssBundlePathPrefix c) (default [] (outputFiles rc))
       ++ [ EvCreateAssetsManifest (remixConfig c) (result_metafile ra) pr.1 ]).
  eexists.
  unfold completedWorld. cbn [log heap].
  split; [rewrite Hlog; list_normal; reflexivity |].
  split.
  { intros ch' ref' Hin. apply in_app_or in Hin. destruct Hin as [Hin | Hin].
    - destruct Hin as [Hin | [Hin | Hin]].
      + subst evA. discriminate HevA.
      + subst evC. discriminate HevC.
      + apply in_app_or in Hin. destruct Hin as [Hin | [Hin | []]];
          [| discriminate Hin].
        unfold stylesheetWrites in Hin. apply in_map_iff in Hin.
        destruct Hin as (f & Hf & _). discriminate Hf.
    - destruct Hin as [Hin | []]. discriminate Hin. }
  split; [exact Hm |]. split; [reflexivity |].
  split; [rewrite Hheap; apply lookup_ge_None; lia |].
  split; [now rewrite lookup_app_r, Nat.sub_diag by lia |].
  split; [reflexivity |]. split; reflexivity.
Qed.
End Manifest.

(** ** Discarded output *)

Section Discarded.
Context `{Runtime}.

(** C10. An emitted file under the css-bundle prefix that ends in neither
    [.css] nor [.css.map] leaves the callback's state as it found it, just
    as a file outside the prefix does: nothing is written, [cssBundlePath]
    keeps its value, and the post-processing of a list of files gives the
    same path and the same world with or without that file. *)
Theorem discarded_under_prefix (prefix : string) (f : OutputFile) :
  startsWith (path f) prefix = true ->
  endsWith (path f) ".css" = false ->
  endsWith (path f) ".css.map" = false ->
  (forall st, processOutputFile prefix st f = st)
  /\ (forall g, startsWith (path g) prefix = false ->
                forall st, processOutputFile prefix st g = st)
  /\ (forall pre post w,
        processOutputFiles prefix (pre ++ f :: post) w
        = processOutputFiles prefix (pre ++ post) w)
  /\ (forall pre post cont,
        (forall g, In g (pre ++ post) -> path g <> path f) ->
        ~ In (EvWriteFile (path f) cont)
             (stylesheetWrites prefix (pre ++ f :: post))).
Proof.
  intros Hpre Hcss Hmap.
  assert (Hskip : forall st, processOutputFile prefix st f = st).
  { intros [cssBundlePath w]. unfold processOutputFile, outputFileCallback.
    now rewrite Hpre, Hcss, Hmap. }
  split; [exact Hskip |]. split.
  { intros g Hg [cssBundlePath w]. unfold processOutputFile, outputFileCallback.
    now rewrite Hg. }
  split.
  { intros pre post w. rewrite !processOutputFiles_fold.
    rewrite !fold_left_app. cbn [fold_left]. now rewrite Hskip. }
  intros pre post cont Hother Hin. apply stylesheetWrites_In in Hin.
  destruct Hin as (g & Hg & Hpath & _ & Hpers).
  apply in_app_or in Hg. destruct Hg as [Hg | [<- | Hg]].
  - apply (Hother g); [apply in_or_app; now left | exact Hpath].
  - apply isPersisted_iff in Hpers. destruct Hpers as [_ [Habs | Habs]];
      congruence.
  - apply (Hother g); [apply in_or_app; now right | exact Hpath].
Qed.
End Discarded.

(** ** Disposal *)

Section Disposal.
Context `{Runtime}.

(** [dispose] never fails and touches neither heap nor disk; the one call
    it can make releases the application build's handle. *)
Lemma dispose_log (c : BrowserCompiler) (w : World) :
  log (dispose c w)
  = log w ++ match appCompiler c with Some h => [EvDispose h] | None => [] end
  /\ heap (dispose c w) = heap w /\ disk (dispose c w) = disk w.
Proof.
  unfold dispose. destruct (appCompiler c); cbn; [auto |].
  now rewrite app_nil_r.
Qed.
End Disposal.

(** ** The CSS-modules plugin *)

Lemma length_app (s1 s2 : string) :
  String.length (s1 +:+ s2) = String.length s1 + String.length s2.
Proof. induction s1 as [| a s1 IH]; simpl; [reflexivity | now f_equal]. Qed.

Lemma append_empty_r (s : string) : s +:+ EmptyString = s.
Proof.
  induction s as [| a s IH]; [reflexivity |].
  change (String a s +:+ EmptyString) with (String a (s +:+ EmptyString)).
  now rewrite IH.
Qed.

Lemma length_substring_0 (n : nat) :
  forall s : string, n <= String.length s -> String.length (substring 0 n s) = n.
Proof.
  induction n as [| n IH]; intros s Hn.
  - now destruct s.
  - destruct s as [| a s]; cbn in *; [lia |]. rewrite IH; [reflexivity | lia].
Qed.

Section PluginFacts.
Context `{Runtime}.
Import CssModules.

Lemma scopedName_production (options : CompileOptions)
    (originalName localName hash : string) :
  mode options = Production ->
  scopedName options originalName localName hash = substring 0 5 hash.
Proof.
  intros Hmode. unfold scopedName, generateScopedName. rewrite Hmode. cbn.
  now rewrite ?append_empty_r.
Qed.

Lemma scopedName_other (options : CompileOptions)
    (originalName localName hash : string) :
  mode options <> Production ->
  scopedName options originalName localName hash
  = originalName +:+ "__" +:+ localName +:+ "__" +:+ substring 0 5 hash.
Proof.
  intros Hmode. unfold scopedName, generateScopedName.
  destruct (mode options); [| congruence |]; cbn; now rewrite ?append_empty_r.
Qed.
End PluginFacts.

Section PluginTheorems.
Context `{Runtime}.
Import CssModules.

(** C6. The pattern handed to postcss-modules is chosen by the mode:
    [[hash:base64:5]] in production, [[name]__[local]__[hash:base64:5]]
    otherwise. Under the expansion of these patterns, a local name becomes
    in production the first five characters of the digest, five characters
    wide and the same whatever the file and the local name are called, and
    otherwise the original name, the local name and those five characters
    joined by [__]; so the two generated names differ, and so do the name
    mappings of a file with at least one local name. *)
Theorem scopedName_formats (production other : CompileOptions)
    (originalName localName hash : string) :
  mode production = Production ->
  mode other <> Production ->
  5 <= String.length hash ->
  generateScopedName production = "[hash:base64:5]"
  /\ generateScopedName other = "[name]__[local]__[hash:base64:5]"
  /\ scopedName production originalName localName hash = substring 0 5 hash
  /\ String.length (scopedName production originalName localName hash) = 5
  /\ (forall originalName' localName',
        scopedName production originalName' localName' hash
        = scopedName production originalName localName hash)
  /\ scopedName other originalName localName hash
     = originalName +:+ "__" +:+ localName +:+ "__" +:+ substring 0 5 hash
  /\ scopedName production originalName localName hash
     <> scopedName other originalName localName hash
  /\ (forall (hashOf : string -> string) (locals : list string),
        (forall l, 5 <= String.length (hashOf l)) ->
        nameMapping production originalName hashOf locals
        = List.map (fun l => (l, substring 0 5 (hashOf l))) locals
        /\ nameMapping other originalName hashOf locals
           = List.map (fun l => (l, originalName +:+ "__" +:+ l +:+ "__"
                                      +:+ substring 0 5 (hashOf l))) locals
        /\ (locals <> [] ->
            nameMapping production originalName hashOf locals
            <> nameMapping other originalName hashOf locals)).
Proof.
  intros Hprod Hother Hhash.
  assert (Hdiff : forall name l h, 5 <= String.length h ->
            scopedName production name l h <> scopedName other name l h).
  { intros name l h Hh Heq. apply (f_equal String.length) in Heq.
    rewrite scopedName_production, scopedName_other in Heq by assumption.
    rewrite !length_app, length_substring_0 in Heq by exact Hh.
    cbn in Heq. lia. }
  split; [unfold generateScopedName; now rewrite Hprod |].
  split; [unfold generateScopedName; destruct (mode other); [| congruence |]; reflexivity |].
  split; [now apply scopedName_production |].
  split; [rewrite scopedName_production by exact Hprod;
          now apply length_substring_0 |].
  split; [intros; now rewrite !scopedName_production |].
  split; [now apply scopedName_other |].
  split; [now apply Hdiff |].
  intros hashOf locals HhashOf. unfold nameMapping.
  split; [apply map_ext; intros l; now rewrite scopedName_production |].
  split; [apply map_ext; intros l; now rewrite scopedName_other |].
  destruct locals as [| l locals]; [congruence |]. intros _ Heq.
  cbn [List.map] in Heq. injection Heq as Heq _.
  now apply (Hdiff originalName l (hashOf l)).
Qed.

(** C7. When the primary load hook succeeds on a file, the record it
    attaches holds the directory of that file and the compiled CSS (what
    postcss returned, with the source map appended when there is one). The
    secondary resolve hook hands on the record it receives without
    changing it, into the plugin's namespace; and the secondary load hook,
    given that record, returns that compiled CSS with the [css] loader and
    that directory as [resolveDir]. *)
Theorem passThrough_record (options : CompileOptions) (env : PluginEnv)
    (args : OnLoadArgs) (r : OnLoadResult) :
  onLoadModule options env args = inr r ->
  exists (fileContents : string) (pr : PostcssResult),
    readFile env (load_path args) = inr fileContents
    /\ postcss_process env (generateScopedName options) fileContents
         (load_path args) (negb (Mode_eqb (mode options) Production)) = inr pr
    /\ loaded_pluginData r
       = Some {| resolveDir := path_dirname (load_path args);
                 compiledCss := withSourceMap pr |}
    /\ forall importArgs : OnResolveArgs,
         resolve_pluginData importArgs = loaded_pluginData r ->
         resolved_pluginData (onResolveCompiledCss importArgs)
         = loaded_pluginData r
         /\ resolved_namespace (onResolveCompiledCss importArgs)
            = Some "css-modules-plugin-ns"
         /\ forall loadArgs : OnLoadArgs,
              load_pluginData loadArgs
              = resolved_pluginData (onResolveCompiledCss importArgs) ->
              onLoadCompiledCss loadArgs
              = inr {| loaded_contents := withSourceMap pr;
                       loaded_loader := css;
                       loaded_resolveDir := Some (path_dirname (load_path args));
                       loaded_pluginData := None |}.
Proof.
  unfold onLoadModule. intros Hload.
  destruct (readFile env (load_path args)) as [e | fileContents]; [discriminate |].
  destruct (postcss_process env _ _ _ _) as [e | pr] eqn:Epost; [discriminate |].
  injection Hload as <-. exists fileContents, pr. cbn.
  split; [reflexivity |]. split; [exact Epost |]. split; [reflexivity |].
  intros importArgs Himport. split; [exact Himport |]. split; [reflexivity |].
  intros loadArgs HloadArgs. unfold onLoadCompiledCss.
  rewrite HloadArgs, Himport. reflexivity.
Qed.
End PluginTheorems.

(** * Further properties of the code *)

(** ** Suffixes *)

Lemma substring_whole (s : string) : substring 0 (String.length s) s = s.
Proof. induction s as [| a s IH]; cbn; [reflexivity | now rewrite IH]. Qed.

Lemma substring_app_r (pre p : string) (i k : nat) :
  substring (String.length pre + i) k (pre +:+ p) = substring i k p.
Proof. induction pre as [| a pre IH]; [reflexivity | exact IH]. Qed.

Lemma substring_cut (i k : nat) :
  forall s : string,
    i + k = String.length s -> s = substring 0 i s +:+ substring i k s.
Proof.
  induction i as [| i IH]; intros s Hlen.
  - cbn in Hlen. subst k. rewrite substring_whole. now destruct s.
  - destruct s as [| a s]; [discriminate Hlen |].
    cbn in Hlen. injection Hlen as Hlen.
    change (String a s = String a (substring 0 i s +:+ substring i k s)).
    now rewrite <- IH.
Qed.

Lemma endsWith_app (pre p q : string) :
  String.length q <= String.length p ->
  endsWith (pre +:+ p) q = endsWith p q.
Proof.
  intros Hlen. unfold endsWith. rewrite length_app.
  replace (String.length pre + String.length p - String.length q)
    with (String.length pre + (String.length p - String.length q)) by lia.
  rewrite substring_app_r.
  destruct (Nat.leb_spec (String.length q) (String.length p)); [| lia].
  destruct (Nat.leb_spec (String.length q) (String.length pre + String.length p));
    [reflexivity | lia].
Qed.

Lemma endsWith_inv (s p : string) :
  endsWith s p = true -> exists pre, s = pre +:+ p.
Proof.
  unfold endsWith.
  destruct (Nat.leb_spec (String.length p) (String.length s)) as [Hle |];
    [| discriminate].
  intros Heq. apply String.eqb_eq in Heq.
  exists (substring 0 (String.length s - String.length p) s).
  pose proof (substring_cut (String.length s - String.length p)
                (String.length p) s) as Hcut.
  rewrite Heq in Hcut. apply Hcut. lia.
Qed.

(** A path that ends in [.css.map] does not end in [.css]. *)
Lemma map_is_not_css (p : string) :
  endsWith p ".css.map" = true -> endsWith p ".css" = false.
Proof.
  intros Hmap. apply endsWith_inv in Hmap. destruct Hmap as [pre ->].
  rewrite endsWith_app by (cbn; lia). reflexivity.
Qed.

(** ** Assembling the configuration *)

Section ConfigFacts.
Context `{Runtime}.

Lemma getExternals_inr (cfg : RemixConfig) (ext : list string) :
  getExternals cfg = inr ext ->
  ext = nodeBuiltins
  /\ fakeBuiltins (Object_keys (getAppDependencies cfg)) = [].
Proof.
  unfold getExternals.
  destruct (fakeBuiltins _) as [| a fake] eqn:Efake; [| discriminate].
  cbn. intros Heq. injection Heq as <-. split; [| reflexivity].
  apply filter_all. intros m Hm. apply negb_true_iff.
  destruct (includes _ m) eqn:E; [| reflexivity].
  assert (Hin : In m (fakeBuiltins (Object_keys (getAppDependencies cfg))))
    by (apply fakeBuiltins_In; split; [exact Hm | now apply includes_In]).
  rewrite Efake in Hin. destruct Hin.
Qed.

(** X1. Whenever [getExternals] returns, it returns the whole list of
    builtins and no dependency of the application has the name of one:
    the filter of its last line never removes anything. It throws exactly
    when some dependency has the name of a builtin. *)
Theorem getExternals_all_or_nothing (cfg : RemixConfig) :
  (forall ext, getExternals cfg = inr ext ->
     ext = nodeBuiltins
     /\ forall d, is_Some (getAppDependencies cfg !! d) -> ~ In d nodeBuiltins)
  /\ ((exists e, getExternals cfg = inl e)
      <-> exists d, is_Some (getAppDependencies cfg !! d) /\ In d nodeBuiltins).
Proof.
  assert (Hfake : forall d, In d (fakeBuiltins (Object_keys (getAppDependencies cfg)))
                  <-> In d nodeBuiltins /\ is_Some (getAppDependencies cfg !! d)).
  { intros d. rewrite fakeBuiltins_In, Object_keys_In. reflexivity. }
  split.
  - intros ext Hext. apply getExternals_inr in Hext. destruct Hext as [-> Hnone].
    split; [reflexivity |]. intros d Hd Hb.
    assert (Hin : In d (fakeBuiltins (Object_keys (getAppDependencies cfg))))
      by (apply Hfake; auto).
    rewrite Hnone in Hin. destruct Hin.
  - split.
    + intros [e He]. unfold getExternals in He.
      destruct (fakeBuiltins _) as [| a fake] eqn:Efake; [discriminate He |].
      exists a. apply and_comm, Hfake. rewrite ?Efake. now left.
    + intros (d & Hd & Hb). eexists. apply getExternals_throws.
      intros Hnil. assert (Hin : In d (fakeBuiltins (Object_keys (getAppDependencies cfg))))
        by (apply Hfake; auto).
      rewrite Hnil in Hin. destruct Hin.
Qed.

Lemma createEsbuildConfig_inl (build : BuildTarget) (cfg : RemixConfig)
    (opts : CompileOptions) (e : Error) :
  createEsbuildConfig build cfg opts = inl e <-> getExternals cfg = inl e.
Proof.
  unfold createEsbuildConfig. destruct (getExternals cfg) as [e' | ext].
  - split; intros Heq; injection Heq as <-; reflexivity.
  - split; discriminate.
Qed.

(** X2. The configurations of the two targets are assembled or refused
    together: [createEsbuildConfig] throws for one target exactly when it
    throws for the other, with the error of [getExternals]. When both are
    assembled they share the output directory, the externals (all
    builtins), the public path, the tsconfig, the source-map and
    minification settings and the plugins after the first; they differ in
    code splitting (on for the application only), in the [emitCss] flag of
    the CSS-modules plugin and in the entry points, of which the
    stylesheet target has exactly one, [css-bundle]. Minification is on in
    production mode only and [jsxDev] is its opposite. *)
Theorem createEsbuildConfig_targets (cfg : RemixConfig) (opts : CompileOptions) :
  (forall e, createEsbuildConfig App cfg opts = inl e
             <-> createEsbuildConfig Css cfg opts = inl e)
  /\ (forall e, createEsbuildConfig App cfg opts = inl e -> getExternals cfg = inl e)
  /\ forall confA confC,
       createEsbuildConfig App cfg opts = inr confA ->
       createEsbuildConfig Css cfg opts = inr confC ->
       outdir confA = outdir confC
       /\ external confA = nodeBuiltins /\ external confC = nodeBuiltins
       /\ bo_publicPath confA = bo_publicPath confC
       /\ tsconfig confA = tsconfig confC
       /\ bo_sourcemap confA = bo_sourcemap confC
       /\ minify confA = minify confC
       /\ (minify confA = true <-> mode opts = Production)
       /\ jsxDev confA = negb (minify confA) /\ jsxDev confC = negb (minify confC)
       /\ splitting confA = true /\ splitting confC = false
       /\ entryPoints confC = {[ "css-bundle" := cssBuildVirtualModule_id ]}
       /\ (exists others,
             plugins confA = cssModulesPlugin (mode opts) false :: others
             /\ plugins confC = cssModulesPlugin (mode opts) true :: others)
       /\ metafile confA = None /\ write confA = None /\ incremental confA = None.
Proof.
  split; [intros e; now rewrite !createEsbuildConfig_inl |].
  split; [intros e; now rewrite createEsbuildConfig_inl |].
  intros confA confC. unfold createEsbuildConfig.
  destruct (getExternals cfg) as [e | ext] eqn:Eext; [discriminate |].
  apply getExternals_inr in Eext. destruct Eext as [-> _].
  intros HA HC. injection HA as <-. injection HC as <-. cbn.
  repeat (split; [reflexivity |]).
  split; [destruct (mode opts); cbn; split; congruence |].
  repeat (split; [reflexivity |]).
  split; [eexists; split; reflexivity |]. auto.
Qed.

Lemma assignKey_lookup (o : gmap string string) (k v id : string) :
  assignKey o k v !! id
  = if bool_decide (k = id) && negb (String.eqb k "__proto__")
    then Some v else o !! id.
Proof.
  unfold assignKey. destruct (String.eqb k "__proto__"); cbn [negb].
  - now rewrite andb_false_r.
  - rewrite andb_true_r. case_bool_decide as Hk.
    + subst. apply lookup_insert_eq.
    + now apply lookup_insert_ne.
Qed.

Lemma foldl_routes (routes : gmap string ConfigRoute) (id : string) :
  forall (keys : list string) (acc : gmap string string),
    foldl (fun acc id =>
             match routes !! id with
             | Some r => assignKey acc id (file r +:+ "?browser")
             | None => acc
             end) acc keys !! id
    = match routes !! id with
      | Some r => if bool_decide (id ∈ keys) && negb (String.eqb id "__proto__")
                  then Some (file r +:+ "?browser") else acc !! id
      | None => acc !! id
      end.
Proof.
  induction keys as [| k keys IH]; intros acc.
  - cbn. now destruct (routes !! id).
  - cbn [foldl]. rewrite IH. destruct (routes !! id) as [r |] eqn:Eid.
    + destruct (decide (k = id)) as [-> | Hne].
      * rewrite Eid, assignKey_lookup.
        rewrite (bool_decide_eq_true_2 (id = id)) by reflexivity.
        rewrite (bool_decide_eq_true_2 (id ∈ id :: keys))
          by (apply elem_of_cons; now left).
        cbn [andb].
        destruct (negb (String.eqb id "__proto__"));
          [now destruct (bool_decide (id ∈ keys)) |].
        now rewrite andb_false_r.
      * assert (Hother : (match routes !! k with
                          | Some r0 => assignKey acc k (file r0 +:+ "?browser")
                          | None => acc
                          end) !! id = acc !! id).
        { destruct (routes !! k); [| reflexivity].
          rewrite assignKey_lookup.
          now rewrite (bool_decide_eq_false_2 (k = id)) by exact Hne. }
        rewrite Hother.
        assert (Hkeys : bool_decide (id ∈ k :: keys) = bool_decide (id ∈ keys)).
        { apply bool_decide_ext. rewrite elem_of_cons. split; [| now right].
          intros [Heq | Hin]; [now contradiction Hne | exact Hin]. }
        now rewrite Hkeys.
    + destruct (decide (k = id)) as [-> | Hne]; [now rewrite Eid |].
      destruct (routes !! k); [| reflexivity].
      rewrite assignKey_lookup.
      now rewrite (bool_decide_eq_false_2 (k = id)) by exact Hne.
Qed.

(** X3. The entry points of the application build, as own keys of the
    object handed to the engine: every route id is mapped to the route's
    file followed by [?browser], except the id [__proto__], whose
    assignment creates no key; [entry.client] is mapped to the resolved
    client entry file unless a route has that very id, in which case the
    route takes the entry; and there is no other entry point. *)
Theorem app_entryPoints (cfg : RemixConfig) (opts : CompileOptions)
    (conf : BuildOptions) :
  createEsbuildConfig App cfg opts = inr conf ->
  forall id : string,
    entryPoints conf !! id
    = match routes cfg !! id with
      | Some r => if String.eqb id "__proto__" then None
                  else Some (file r +:+ "?browser")
      | None =>
          if String.eqb id "entry.client"
          then Some (path_resolve (appDirectory cfg) (entryClientFile cfg))
          else None
      end.
Proof.
  unfold createEsbuildConfig.
  destruct (getExternals cfg) as [e | ext]; [discriminate |].
  intros Hconf id. injection Hconf as <-. cbn [entryPoints].
  rewrite foldl_routes. destruct (routes cfg !! id) as [r |] eqn:Eid.
  - rewrite bool_decide_eq_true_2
      by (apply list_elem_of_In, Object_keys_In; now rewrite Eid).
    cbn [andb]. destruct (String.eqb_spec id "__proto__") as [-> | Hne];
      cbn [negb]; [| reflexivity].
    now apply lookup_singleton_ne.
  - destruct (String.eqb_spec id "entry.client") as [-> | Hne].
    + apply lookup_singleton_eq.
    + apply lookup_singleton_ne. congruence.
Qed.
End ConfigFacts.

(** ** More on the stylesheet post-processing *)

Section MoreStylesheetFacts.
Context `{Runtime}.


(** X4. The CSS bundle path that the post-processing resolves is always
    the path of an emitted file, lies under the css-bundle prefix and ends
    in [.css]; it is never the path of a source map, because a path ending
    in [.css.map] does not end in [.css]: no file is handled both as
    stylesheet and as source map. *)
Theorem cssBundlePath_is_stylesheet (prefix : string)
    (files : list OutputFile) (w : World) :
  (forall p, (processOutputFiles prefix files w).1 = Some p ->
     exists f, In f files /\ path f = p
               /\ startsWith p prefix = true
               /\ endsWith p ".css" = true /\ endsWith p ".css.map" = false)
  /\ (forall f, isSourceMap prefix f = true -> isStylesheet prefix f = false).
Proof.
  split.
  - intros p Hp.
    destruct (processOutputFiles_facts prefix files w) as (_ & _ & Hpath).
    rewrite Hpath in Hp.
    destruct (last (List.filter (isStylesheet prefix) files)) as [f |] eqn:Elast;
      [| discriminate Hp].
    injection Hp as <-. apply last_Some in Elast. destruct Elast as [l' Hl'].
    assert (Hin : In f (List.filter (isStylesheet prefix) files))
      by (rewrite Hl'; apply in_or_app; right; now left).
    apply filter_In in Hin. destruct Hin as [Hin Hcss].
    unfold isStylesheet in Hcss. apply andb_true_iff in Hcss.
    destruct Hcss as [Hpre Hsuf]. exists f.
    repeat split; try assumption.
    destruct (endsWith (path f) ".css.map") eqn:Emap; [| reflexivity].
    apply map_is_not_css in Emap. congruence.
  - intros f Hmap. unfold isSourceMap in Hmap. apply andb_true_iff in Hmap.
    destruct Hmap as [_ Hmap]. apply map_is_not_css in Hmap.
    unfold isStylesheet. rewrite Hmap. apply andb_false_r.
Qed.

(** X5. What the post-processing leaves on disk: at the path of a
    persisted file the disk holds that file's contents when the file
    system accepts the write, and what it held before when the write is
    rejected, unless a later persisted file of the same list has the same
    path (the last write stays); and a path that no persisted file has
    keeps what it held. *)
Theorem stylesheet_on_disk (prefix : string) (pre post : list OutputFile)
    (f : OutputFile) (w : World) :
  isPersisted prefix f = true ->
  (forall g, In g post -> isPersisted prefix g = true -> path g <> path f) ->
  disk (processOutputFiles prefix (pre ++ f :: post) w).2 !! path f
  = match unwritable w !! path f with
    | None => Some (contents f)
    | Some _ => disk w !! path f
    end
  /\ forall p,
       (forall g, In g (pre ++ f :: post) -> isPersisted prefix g = true ->
                  path g <> p) ->
       disk (processOutputFiles prefix (pre ++ f :: post) w).2 !! p = disk w !! p.
Proof.
  intros Hf Hpost. split; [| intros p Hp; now apply processOutputFiles_disk].
  destruct (unwritable w !! path f) as [e |] eqn:Eu.
  - now apply (processOutputFiles_refused _ _ _ _ e).
  - now apply processOutputFiles_written.
Qed.
End MoreStylesheetFacts.

(** ** More on [compile] and [dispose] *)

Section MoreCompileFacts.
Context `{Runtime}.

Lemma issue_unwritable (build : BuildTarget) (o : Oracle) (c : BrowserCompiler)
    (w w' : World) (r : Result (Result BuildIncremental)) :
  issue build o c w = (r, w') ->
  unwritable w' = unwritable w /\ disk w' = disk w /\ heap w' = heap w.
Proof.
  intros Hissue.
  destruct (issue_world build o c w) as [(e & E) | (p & ev & E & _)];
    rewrite E in Hissue; injection Hissue as _ <-; auto.
Qed.


Lemma channelRefs_app (l1 l2 : list Event) :
  channelRefs (l1 ++ l2) = channelRefs l1 ++ channelRefs l2.
Proof. apply omap_app. Qed.

Lemma channelRefs_stylesheetWrites (prefix : string) (files : list OutputFile) :
  channelRefs (stylesheetWrites prefix files) = [].
Proof.
  unfold stylesheetWrites.
  induction (List.filter (isPersisted prefix) files) as [| f l IH];
    [reflexivity | exact IH].
Qed.

Lemma channelRefs_engine (ev : Event) :
  (isFullBuild ev || isRebuild ev) = true -> channelRefs [ev] = [].
Proof. destruct ev; cbn; congruence. Qed.

(** What one call adds to the references published so far. *)
Lemma compile_channelRefs (o : Oracle) (ch : WriteChannel)
    (c : BrowserCompiler) (w : World) :
  channelRefs (log (compile o ch c w).2)
  = channelRefs (log w)
      ++ match (compile o ch c w).1.1 with
         | inr _ => [List.length (heap w)]
         | inl _ => []
         end.
Proof.
  rewrite compile_eq.
  destruct (issue_world App o c w) as [(eA & EA) | (appP & evA & EA & HevA)];
    rewrite EA; [cbn; now rewrite app_nil_r |].
  destruct (issue_world Css o c (emit evA w)) as [(eC & EC) | (cssP & evC & EC & HevC)];
    rewrite EC.
  { cbn [fst snd emit log]. now rewrite channelRefs_app, channelRefs_engine. }
  destruct cssP as [eC | rc].
  { cbn [fst snd emit log]. now rewrite !channelRefs_app, !channelRefs_engine, !app_nil_r. }
  cbv zeta.
  destruct (processOutputFiles_facts (cssBundlePathPrefix c)
              (default [] (outputFiles rc)) (emit evC (emit evA w)))
    as (Hheap & Hlog & _).
  fold (stylesheetWrites (cssBundlePathPrefix c) (default [] (outputFiles rc))) in Hlog.
  cbn [emit heap log] in Hheap, Hlog.
  assert (Hrefs : channelRefs
                    (log (processOutputFiles (cssBundlePathPrefix c)
                            (default [] (outputFiles rc))
                            (emit evC (emit evA w))).2)
                  = channelRefs (log w)).
  { rewrite Hlog, !channelRefs_app, !channelRefs_engine by assumption.
    now rewrite channelRefs_stylesheetWrites, !app_nil_r. }
  destruct appP as [eA | ra].
  { destruct (cssSettlesFirst o); cbn [fst snd emit log];
      [now rewrite Hrefs, app_nil_r |].
    now rewrite !channelRefs_app, !channelRefs_engine, !app_nil_r. }
  destruct (stylesheetRejection _ _ _) as [eW |];
    [cbn [fst snd]; now rewrite Hrefs, app_nil_r |].
  destruct (createAssetsManifest o _ _ _) as [e | m].
  - cbn [fst snd emit log]. rewrite channelRefs_app, Hrefs. reflexivity.
  - unfold completedWorld. cbn [fst snd log].
    rewrite channelRefs_app, Hrefs, Hheap. reflexivity.
Qed.

(** X9. In every state one compiler can reach, a call of [compile] enters
    the engine either not at all (the configuration is refused, before
    anything is logged) or exactly twice, as the first two things it does:
    first for the application and then for the stylesheet target, and with
    the same kind of call for both. While no handle is stored these are
    the full builds of the application configuration and of the stylesheet
    configuration, in this order; once handles are stored, the rebuilds of
    the application handle and of the stylesheet handle, in this order. *)
Theorem compile_engine_calls (cfg : RemixConfig) (opts : CompileOptions)
    (c : BrowserCompiler) (o : Oracle) (ch : WriteChannel) (w : World) :
  reachable cfg opts c ->
  exists evs : list Event,
    log (compile o ch c w).2 = log w ++ evs
    /\ ((evs = [] /\ appCompiler c = None
         /\ exists e, getExternals cfg = inl e /\ (compile o ch c w).1.1 = inl e)
        \/ (exists confA confC rest,
              createEsbuildConfig App cfg opts = inr confA
              /\ createEsbuildConfig Css cfg opts = inr confC
              /\ evs = EvBuild (fullBuildOptions App confA)
                         :: EvBuild (fullBuildOptions Css confC) :: rest
              /\ (forall ev, In ev rest -> isEngineCall ev = false)
              /\ appCompiler c = None /\ cssCompiler c = None)
        \/ (exists ha hc rest,
              evs = EvRebuild ha :: EvRebuild hc :: rest
              /\ (forall ev, In ev rest -> isEngineCall ev = false)
              /\ appCompiler c = Some ha /\ cssCompiler c = Some hc)).
Proof.
  intros Hreach.
  destruct (reachable_invariant cfg opts c Hreach) as (Hcfg & Hopts & Hpair).
  assert (Hnot : forall rest,
            (forall ev, In ev rest -> isFullBuild ev = false /\ isRebuild ev = false) ->
            forall ev, In ev rest -> isEngineCall ev = false).
  { intros rest Hrest ev Hev. unfold isEngineCall.
    now destruct (Hrest ev Hev) as [-> ->]. }
  destruct (appCompiler c) as [ha |] eqn:Eha.
  - destruct (cssCompiler c) as [hc |] eqn:Ehc.
    2:{ assert (Some ha = None) by now apply Hpair. discriminate. }
    destruct (compile_after_issue o ch c w (EvRebuild ha) (EvRebuild hc)
                (esbuild_rebuild o ha) (esbuild_rebuild o hc))
      as (rest & Hlog & Hrest & _); [now apply issue_rebuild .. |].
    eexists. split; [exact Hlog |]. right. right. exists ha, hc, rest.
    split; [reflexivity |]. split; [now apply Hnot | auto].
  - assert (Ehc : cssCompiler c = None) by now apply Hpair.
    destruct (getExternals cfg) as [e | ext] eqn:Eext.
    + exists []. rewrite compile_eq.
      rewrite (issue_throws App o c w e);
        [| exact Eha | rewrite Hcfg, Hopts; now apply createEsbuildConfig_inl].
      cbn. rewrite app_nil_r. split; [reflexivity |]. left. eauto.
    + destruct (createEsbuildConfig App cfg opts) as [e | confA] eqn:EA.
      { apply createEsbuildConfig_inl in EA. congruence. }
      destruct (createEsbuildConfig Css cfg opts) as [e | confC] eqn:EC.
      { apply createEsbuildConfig_inl in EC. congruence. }
      destruct (compile_after_issue o ch c w
                  (EvBuild (fullBuildOptions App confA))
                  (EvBuild (fullBuildOptions Css confC))
                  (esbuild_build o (fullBuildOptions App confA))
                  (esbuild_build o (fullBuildOptions Css confC)))
        as (rest & Hlog & Hrest & _).
      * apply issue_full; [exact Eha | now rewrite Hcfg, Hopts].
      * apply issue_full; [exact Ehc | now rewrite Hcfg, Hopts].
      * eexists. split; [exact Hlog |]. right. left.
        exists confA, confC, rest.
        split; [reflexivity |]. split; [reflexivity |].
        split; [reflexivity |]. split; [now apply Hnot | auto].
Qed.

(** X10. [dispose] does not forget the handles: it leaves both where they
    are, so a [compile] after [dispose] calls [rebuild] on the handle that
    was just released, and on the stylesheet handle, and starts no full
    build. *)
Theorem dispose_keeps_handles (o : Oracle) (ch : WriteChannel)
    (c : BrowserCompiler) (w : World) (ha hc : BuildIncremental) :
  appCompiler c = Some ha ->
  cssCompiler c = Some hc ->
  exists rest : list Event,
    log (compile o ch c (dispose c w)).2
    = log w ++ EvDispose ha :: EvRebuild ha :: EvRebuild hc :: rest
    /\ forall ev, In ev rest -> isFullBuild ev = false /\ isRebuild ev = false.
Proof.
  intros Hha Hhc. unfold dispose. rewrite Hha.
  destruct (compile_after_issue o ch c (emit (EvDispose ha) w)
              (EvRebuild ha) (EvRebuild hc)
              (esbuild_rebuild o ha) (esbuild_rebuild o hc))
    as (rest & Hlog & Hrest & _); [now apply issue_rebuild .. |].
  exists rest. split; [| exact Hrest].
  rewrite Hlog. cbn [emit log]. now rewrite <- app_assoc.
Qed.

(** X11. The handles are stored before the manifest is built: when both
    operations succeed and the manifest builder fails, [compile] fails
    with the builder's error and publishes nothing, yet it has replaced
    both handles, so that the next call rebuilds from the results of the
    failed one. This is so when every stylesheet write is accepted; when
    one is rejected, [compile] fails with the error of the write before
    the handles are stored, and publishes nothing either. *)
Theorem compile_builder_failure (o : Oracle) (ch : WriteChannel)
    (c : BrowserCompiler) (w w1 w2 : World) (ra rc : BuildIncremental)
    (e : Error) :
  issue App o c w = (inr (inr ra), w1) ->
  issue Css o c w1 = (inr (inr rc), w2) ->
  createAssetsManifest o (remixConfig c) (result_metafile ra)
    (processOutputFiles (cssBundlePathPrefix c)
       (default [] (outputFiles rc)) w2).1 = inl e ->
  match stylesheetRejection (cssBundlePathPrefix c)
          (default [] (outputFiles rc)) w with
  | None =>
      (compile o ch c w).1 = (inl e, set_compilers c ra rc)
      /\ channelRefs (log (compile o ch c w).2) = channelRefs (log w)
      /\ heap (compile o ch c w).2 = heap w
      /\ forall o' ch' w',
           exists rest,
             log (compile o' ch' (compile o ch c w).1.2 w').2
             = log w' ++ EvRebuild ra :: EvRebuild rc :: rest
  | Some rejected =>
      (compile o ch c w).1 = (inl rejected, c)
      /\ channelRefs (log (compile o ch c w).2) = channelRefs (log w)
      /\ heap (compile o ch c w).2 = heap w
  end.
Proof.
  intros EA EC Ebuilder.
  destruct (issue_unwritable App o c w w1 _ EA) as (Hu1 & _ & Hh1).
  destruct (issue_unwritable Css o c w1 w2 _ EC) as (Hu2 & _ & Hh2).
  assert (Hrej : stylesheetRejection (cssBundlePathPrefix c)
                   (default [] (outputFiles rc)) w2
                 = stylesheetRejection (cssBundlePathPrefix c)
                     (default [] (outputFiles rc)) w)
    by (apply stylesheetRejection_world; now rewrite Hu2, Hu1).
  pose proof (compile_eq o ch c w) as Hcompile.
  rewrite EA, EC in Hcompile. cbv zeta in Hcompile.
  rewrite Hrej, Ebuilder in Hcompile.
  destruct (processOutputFiles_facts (cssBundlePathPrefix c)
              (default [] (outputFiles rc)) w2) as (Hheap & _ & _).
  destruct (stylesheetRejection _ _ w) as [rejected |].
  - assert (Hres : (compile o ch c w).1 = (inl rejected, c))
      by now rewrite Hcompile.
    split; [exact Hres |].
    split; [rewrite compile_channelRefs, Hres; apply app_nil_r |].
    rewrite Hcompile. cbn [snd]. now rewrite Hheap, Hh2, Hh1.
  - assert (Hres : (compile o ch c w).1 = (inl e, set_compilers c ra rc))
      by now rewrite Hcompile.
    split; [exact Hres |].
    split; [rewrite compile_channelRefs, Hres; apply app_nil_r |].
    split; [rewrite Hcompile; cbn [snd emit heap]; now rewrite Hheap, Hh2, Hh1 |].
    intros o' ch' w'. rewrite Hres. cbn [fst snd].
    destruct (compile_after_issue o' ch' (set_compilers c ra rc) w'
                (EvRebuild ra) (EvRebuild rc)
                (esbuild_rebuild o' ra) (esbuild_rebuild o' rc))
      as (rest & Hlog & _); [now apply issue_rebuild .. |].
    exists rest. exact Hlog.
Qed.

(** X12. [writeAssetsManifest] on a manifest object succeeds, replaces
    whatever [url] the object had by the public path followed by the file
    name, leaves every other object alone, and can be repeated: a second
    call on the same object leaves heap and disk as the first one did. *)
Theorem writeAssetsManifest_idempotent (o : Oracle) (cfg : RemixConfig)
    (ref : nat) (w : World) (m : AssetsManifest) :
  heap w !! ref = Some m ->
  (writeAssetsManifest o cfg ref w).1 = inr tt
  /\ heap (writeAssetsManifest o cfg ref w).2 !! ref
     = Some {| version := version m;
               url := Some (publicPath cfg +:+ "manifest-"
                              +:+ toUpperCase (version m) +:+ ".js");
               fields := fields m |}
  /\ (forall other, other <> ref ->
        heap (writeAssetsManifest o cfg ref w).2 !! other = heap w !! other)
  /\ heap (writeAssetsManifest o cfg ref (writeAssetsManifest o cfg ref w).2).2
     = heap (writeAssetsManifest o cfg ref w).2
  /\ disk (writeAssetsManifest o cfg ref (writeAssetsManifest o cfg ref w).2).2
     = disk (writeAssetsManifest o cfg ref w).2.
Proof.
  intros Hm. pose proof (lookup_lt_Some _ _ _ Hm) as Hlt.
  rewrite (writeAssetsManifest_ok o cfg ref w m Hm). cbn [fst snd heap].
  split; [reflexivity |].
  split; [now rewrite list_lookup_insert_eq |].
  split; [intros other Hne; now apply list_lookup_insert_ne |].
  set (m1 := set_url m (publicPath cfg +:+ manifestFilename m)).
  rewrite (writeAssetsManifest_ok o cfg ref _ m1);
    [| cbn [heap]; now rewrite list_lookup_insert_eq].
  cbn [snd heap disk].
  split; [apply list_insert_insert_eq | apply insert_insert_eq].
Qed.
End MoreCompileFacts.

(** ** More on the CSS-modules hooks *)

Lemma append_assoc (s1 s2 s3 : string) :
  (s1 +:+ s2) +:+ s3 = s1 +:+ (s2 +:+ s3).
Proof.
  induction s1 as [| a s1 IH]; [reflexivity |].
  change (String a ((s1 +:+ s2) +:+ s3) = String a (s1 +:+ (s2 +:+ s3))).
  now rewrite IH.
Qed.

Section MorePluginFacts.
Context `{Runtime}.
Import CssModules.

(** X13. The JavaScript module the primary load hook makes for a
    [.module.css] file consists of an import and a default export; the
    imported specifier is [./] followed by the file's base name and the
    compiled-CSS query string, so it is matched by the filter of the
    secondary hooks and not by the [.module.css] filter of the primary
    ones: the plugin hands the import to its second stage and never back
    to its first. *)
Theorem module_import_is_compiledCss (options : CompileOptions)
    (env : PluginEnv) (args : OnLoadArgs) (r : OnLoadResult) :
  onLoadModule options env args = inr r ->
  let specifier :=
    "./" +:+ path_basename (load_path args) +:+ compiledCssQueryString in
  (exists exportsJson : string,
     loaded_contents r
     = ("import " +:+ quote +:+ specifier +:+ quote +:+ ";") +:+ newline
         +:+ ("export default " +:+ exportsJson +:+ ";"))
  /\ loaded_loader r = js
  /\ compiledCssFilter specifier = true
  /\ cssModulesFilter specifier = false.
Proof.
  unfold onLoadModule. intros Hload.
  destruct (readFile env (load_path args)) as [e | fileContents]; [discriminate |].
  destruct (postcss_process env _ _ _ _) as [e | pr]; [discriminate |].
  injection Hload as <-. cbn [loaded_contents loaded_loader].
  split.
  { eexists. unfold join. cbn [String.concat].
    rewrite (append_assoc "./"
               (path_basename (load_path args) +:+ compiledCssQueryString)
               (quote +:+ ";")).
    rewrite (append_assoc (path_basename (load_path args))
               compiledCssQueryString (quote +:+ ";")).
    reflexivity. }
  split; [reflexivity |].
  unfold compiledCssFilter, cssModulesFilter.
  rewrite <- (append_assoc "./").
  rewrite (endsWith_app ("./" +:+ path_basename (load_path args))
             compiledCssQueryString compiledCssQueryString) by (cbn; lia).
  rewrite (endsWith_app ("./" +:+ path_basename (load_path args))
             compiledCssQueryString ".module.css") by (cbn; lia).
  split; reflexivity.
Qed.

(** X14. The secondary hooks hand on what they are given and add nothing:
    the resolve hook puts the import into the plugin's namespace under
    the path relative to the working directory and keeps [pluginData] as
    it came. If no [pluginData] came (the import was not written by the
    primary load hook), the load hook throws; if a record came, the load
    hook returns its compiled CSS and its directory. *)
Theorem compiledCss_needs_pluginData (importArgs : OnResolveArgs)
    (loadArgs : OnLoadArgs) :
  load_pluginData loadArgs
  = resolved_pluginData (onResolveCompiledCss importArgs) ->
  resolved_namespace (onResolveCompiledCss importArgs) = Some "css-modules-plugin-ns"
  /\ resolved_path (onResolveCompiledCss importArgs)
     = path_relative process_cwd
         (path_resolve (resolve_resolveDir importArgs) (resolve_path importArgs))
  /\ (resolve_pluginData importArgs = None ->
      exists e, onLoadCompiledCss loadArgs = inl e)
  /\ (forall data, resolve_pluginData importArgs = Some data ->
        onLoadCompiledCss loadArgs
        = inr {| loaded_contents := compiledCss data;
                 loaded_loader := css;
                 loaded_resolveDir := Some (resolveDir data);
                 loaded_pluginData := None |}).
Proof.
  intros Hdata. cbn in Hdata. unfold onLoadCompiledCss. rewrite Hdata.
  split; [reflexivity |]. split; [reflexivity |]. split.
  - intros ->. eauto.
  - intros data ->. reflexivity.
Qed.

(** X15. Of the compile options the primary load hook reads nothing but
    whether the mode is production: two option records that agree on that
    give the same result on the same file. So the test mode behaves as the
    development mode, and the [sourcemap] option has no say: outside
    production a source map is asked of postcss, in production none. *)
Theorem onLoadModule_reads_production_only (options options' : CompileOptions)
    (env : PluginEnv) (args : OnLoadArgs) :
  Mode_eqb (mode options) Production = Mode_eqb (mode options') Production ->
  generateScopedName options = generateScopedName options'
  /\ onLoadModule options env args = onLoadModule options' env args
  /\ forall fileContents,
       readFile env (load_path args) = inr fileContents ->
       forall r, onLoadModule options env args = inr r ->
         exists pr,
           postcss_process env (generateScopedName options) fileContents
             (load_path args)
             (match mode options with Production => false | _ => true end)
           = inr pr
           /\ loaded_pluginData r
              = Some {| resolveDir := path_dirname (load_path args);
                        compiledCss := withSourceMap pr |}.
Proof.
  intros Hmode.
  assert (Hname : generateScopedName options = generateScopedName options')
    by (unfold generateScopedName; now rewrite Hmode).
  split; [exact Hname |].
  split; [unfold onLoadModule; now rewrite Hname, Hmode |].
  intros fileContents Hread r. unfold onLoadModule. rewrite Hread.
  replace (negb (Mode_eqb (mode options) Production))
    with (match mode options with Production => false | _ => true end)
    by now destruct (mode options).
  destruct (postcss_process env _ _ _ _) as [e | pr]; [discriminate |].
  intros Hr. injection Hr as <-. exists pr. split; reflexivity.
Qed.
End MorePluginFacts.

(** ** What a rebuild does not look at *)

(** X16. Once both handles are stored, [compile] no longer assembles a
    configuration, so it no longer looks at the builtins or at the
    dependencies of the application: under two runtimes that agree on
    [path.join] and on [toUpperCase], whatever they say about builtins,
    dependencies and the other path functions, the call is the same. A
    dependency that comes to shadow a builtin after the first successful
    call is therefore not reported by later calls. *)
Theorem compile_rebuild_ignores_dependencies (R1 R2 : Runtime)
    (o : Oracle) (ch : WriteChannel) (c : BrowserCompiler) (w : World)
    (ha hc : BuildIncremental) :
  (forall a b, @path_join R1 a b = @path_join R2 a b) ->
  (forall s, @toUpperCase R1 s = @toUpperCase R2 s) ->
  appCompiler c = Some ha ->
  cssCompiler c = Some hc ->
  @compile R1 o ch c w = @compile R2 o ch c w.
Proof.
  intros Hjoin Hupper Hha Hhc.
  rewrite (@compile_eq R1), (@compile_eq R2).
  rewrite (@issue_rebuild R1 App o c w ha Hha), (@issue_rebuild R2 App o c w ha Hha).
  rewrite (@issue_rebuild R1 Css o c _ hc Hhc), (@issue_rebuild R2 Css o c _ hc Hhc).
  destruct (esbuild_rebuild o hc) as [eC | rc]; [reflexivity |]. cbv zeta.
  destruct (esbuild_rebuild o ha) as [eA | ra]; [reflexivity |].
  destruct (createAssetsManifest o _ _ _) as [e | m]; [reflexivity |].
  unfold completedWorld, manifestFilename. now rewrite Hupper, !Hjoin.
Qed.

(** * The properties on the concrete project *)

#[local] Existing Instance Fixture.runtime.

(** The stylesheet and its map are written, the script and the asset
    outside the prefix are not, and the stylesheet is on disk afterwards. *)
Lemma compile_stylesheet_outputs_witness :
  exists writes rest : list Event,
    log (compileSettled Fixture.engine Fixture.channel0 Fixture.fresh Fixture.world0)
    = log (Fixture.issuedBoth Fixture.engine) ++ writes ++ rest
    /\ writes
       = [ EvWriteFile "/public/build/css-bundle-AB12CD34.css" ".x1y2z{color:red}";
           EvWriteFile "/public/build/css-bundle-AB12CD34.css.map" "{}" ]
    /\ disk (compileSettled Fixture.engine Fixture.channel0 Fixture.fresh
               Fixture.world0) !! "/public/build/css-bundle-AB12CD34.css"
       = Some ".x1y2z{color:red}"
    /\ disk (compileSettled Fixture.engine Fixture.channel0 Fixture.fresh
               Fixture.world0) !! "/public/build/_assets/logo-EF56.css"
       = None.
Proof.
  destruct (compile_stylesheet_outputs Fixture.engine Fixture.channel0
              Fixture.fresh Fixture.world0
              (Fixture.issuedApp Fixture.engine) (Fixture.issuedBoth Fixture.engine)
              (inr Fixture.appResult) Fixture.cssResult)
    as (writes & rest & Hlog & Hwrites & _ & _ & _ & Hwritten & Hother & _).
  - vm_compute. reflexivity.
  - vm_compute. reflexivity.
  - exists writes, rest. split; [exact Hlog |].
    split; [rewrite Hwrites; vm_compute; reflexivity |].
    assert (Hrest : rest
              = [ EvCreateAssetsManifest (Fixture.config "/clean") (Some "{}")
                    (Some "/public/build/css-bundle-AB12CD34.css");
                  EvChannelWrite Fixture.channel0 0;
                  EvWriteFileSafe "/public/build/manifest-A1B2C3D4.js"
                    "window.__remixManifest={version:a1b2c3d4,url:/build/manifest-A1B2C3D4.js};" ]).
    { rewrite Hwrites in Hlog.
      assert (Hlog' :
                log (compileSettled Fixture.engine Fixture.channel0 Fixture.fresh
                       Fixture.world0)
                = log (Fixture.issuedBoth Fixture.engine)
                    ++ stylesheetWrites (cssBundlePathPrefix Fixture.fresh)
                         (default [] (outputFiles Fixture.cssResult))
                    ++ [ EvCreateAssetsManifest (Fixture.config "/clean") (Some "{}")
                           (Some "/public/build/css-bundle-AB12CD34.css");
                         EvChannelWrite Fixture.channel0 0;
                         EvWriteFileSafe "/public/build/manifest-A1B2C3D4.js"
                           "window.__remixManifest={version:a1b2c3d4,url:/build/manifest-A1B2C3D4.js};" ])
        by (vm_compute; reflexivity).
      rewrite Hlog' in Hlog.
      apply app_inv_head in Hlog. apply app_inv_head in Hlog. now symmetry. }
    split.
    + apply (Hwritten []
               {| path := "/public/build/css-bundle-AB12CD34.css";
                  contents := ".x1y2z{color:red}" |}
               (tail Fixture.cssFiles)).
      * reflexivity.
      * vm_compute. reflexivity.
      * left. vm_compute. reflexivity.
      * vm_compute. reflexivity.
      * intros g [<- | [<- | [<- | []]]] _; discriminate.
      * rewrite Hrest. intros cont [Hin | [Hin | [Hin | []]]]; discriminate Hin.
    + rewrite (Hother "/public/build/_assets/logo-EF56.css").
      * vm_compute. reflexivity.
      * intros g [<- | [<- | [<- | [<- | []]]]] Hpre Hsuf; discriminate.
      * rewrite Hrest. intros cont [Hin | [Hin | [Hin | []]]]; discriminate Hin.
Defined.

(** A write that the file system rejects: the call fails with the error
    of the write and keeps the compiler as it was, the manifest builder is
    not called, and of the two files only the stylesheet, whose write is
    accepted, is on disk. *)
Lemma rejected_write_fails_compile :
  let call := compile Fixture.engine Fixture.channel0 Fixture.fresh
                Fixture.readOnlyWorld in
  call.1 = (inl (mkError "EACCES"), Fixture.fresh)
  /\ log call.2
     = log (Fixture.issuedBoth Fixture.engine)
         ++ [ EvWriteFile "/public/build/css-bundle-AB12CD34.css" ".x1y2z{color:red}";
              EvWriteFile "/public/build/css-bundle-AB12CD34.css.map" "{}" ]
  /\ disk call.2 !! "/public/build/css-bundle-AB12CD34.css"
     = Some ".x1y2z{color:red}"
  /\ disk call.2 !! "/public/build/css-bundle-AB12CD34.css.map" = None.
Proof. vm_compute. repeat split. Qed.


(** C4 as stated fails: when the first call fails in its stylesheet
    build, no handle is stored and the second call issues two full builds
    and no rebuild. *)
Lemma second_call_builds_again :
  let first := compile Fixture.cssFails Fixture.channel0 Fixture.fresh Fixture.world0 in
  let second := compile Fixture.engine Fixture.channel0 first.1.2 first.2 in
  first.1.1 = inl Fixture.syntaxError
  /\ appCompiler first.1.2 = None /\ cssCompiler first.1.2 = None
  /\ List.length (List.filter isFullBuild
                    (drop (List.length (log first.2)) (log second.2))) = 2
  /\ List.filter isRebuild (log second.2) = [].
Proof. vm_compute. repeat split. Qed.

(** After one successful call the next one rebuilds both stored handles. *)
Lemma compile_sequence_handles_witness :
  exists (hc : BuildIncremental) (rest : list Event),
    cssCompiler Fixture.built = Some hc
    /\ log (compile Fixture.engine Fixture.channel0 Fixture.built Fixture.builtWorld).2
       = log Fixture.builtWorld
           ++ EvRebuild Fixture.appResult :: EvRebuild hc :: rest.
Proof.
  assert (Ec : (compileAll [(Fixture.engine, Fixture.channel0)]
                  (createBrowserCompiler (Fixture.config "/clean") Fixture.production)
                  Fixture.world0).1 = Fixture.built)
    by (vm_compute; reflexivity).
  assert (Ew : (compileAll [(Fixture.engine, Fixture.channel0)]
                  (createBrowserCompiler (Fixture.config "/clean") Fixture.production)
                  Fixture.world0).2 = Fixture.builtWorld)
    by (vm_compute; reflexivity).
  pose proof (compile_sequence_handles (Fixture.config "/clean") Fixture.production
                [(Fixture.engine, Fixture.channel0)] Fixture.world0
                Fixture.engine Fixture.channel0) as Hsequence.
  cbv zeta in Hsequence. rewrite Ec, Ew in Hsequence.
  destruct Hsequence as (_ & _ & _ & _ & Hrebuild & _).
  destruct (Hrebuild Fixture.appResult) as (hc & rest & Hhc & Hlog & _).
  - vm_compute. reflexivity.
  - exists hc, rest. split; [exact Hhc | exact Hlog].
Defined.

(** The manifest of the concrete project lands in
    [/public/build/manifest-A1B2C3D4.js]. *)
Lemma compile_persists_manifest_witness :
  exists (pre : list Event) (content : string),
    log Fixture.builtWorld
    = log Fixture.world0
        ++ pre ++ [EvWriteFileSafe "/public/build/manifest-A1B2C3D4.js" content]
    /\ disk Fixture.builtWorld !! "/public/build/manifest-A1B2C3D4.js" = Some content.
Proof.
  destruct (compile_persists_manifest Fixture.engine Fixture.channel0
              Fixture.fresh Fixture.built Fixture.world0 Fixture.builtWorld)
    as (mf & css & m & pre & Hm & Hlog & _ & Hdisk & _).
  - vm_compute. reflexivity.
  - cbn in Hm. injection Hm as <-.
    exists pre. eexists. split; [exact Hlog | exact Hdisk].
Defined.

(** One reference is published, and the object behind it carries the url. *)
Lemma compile_publishes_manifest_witness :
  exists (ref : nat) (m : AssetsManifest),
    List.filter isManifestWrite (log Fixture.builtWorld)
    = [ EvChannelWrite Fixture.channel0 ref;
        EvWriteFileSafe "/public/build/manifest-A1B2C3D4.js"
          ("window.__remixManifest=" +:+ JSON_stringify Fixture.engine m +:+ ";") ]
    /\ heap Fixture.builtWorld !! ref = Some m
    /\ url m = Some "/build/manifest-A1B2C3D4.js".
Proof.
  destruct (compile_publishes_manifest Fixture.engine Fixture.channel0
              Fixture.fresh Fixture.built Fixture.world0 Fixture.builtWorld)
    as (ref & built & m & mf & css & pre & post & Hlog & _).
  - vm_compute. reflexivity.
  - exists 0, (set_url Fixture.manifest "/build/manifest-A1B2C3D4.js").
    vm_compute. repeat split.
Defined.

(** C8 on the concrete project. After a successful call the compiler
    holds the handles of both builds; [dispose] then releases the
    application build's handle and makes no call for the stylesheet
    build's handle. On a fresh compiler [dispose] does nothing. *)
Theorem dispose_leaves_css_handle :
  appCompiler Fixture.built = Some Fixture.appResult
  /\ cssCompiler Fixture.built = Some Fixture.cssResult
  /\ log (dispose Fixture.built Fixture.builtWorld)
     = log Fixture.builtWorld ++ [EvDispose Fixture.appResult]
  /\ List.filter (isDisposeOf Fixture.cssResult)
       (log (dispose Fixture.built Fixture.builtWorld)) = []
  /\ dispose Fixture.fresh Fixture.world0 = Fixture.world0.
Proof. vm_compute. repeat split. Qed.

(** The script of the stylesheet build is dropped. *)
Lemma discarded_under_prefix_witness :
  processOutputFiles "/public/build/css-bundle"
    [ {| path := "/public/build/css-bundle-AB12CD34.css";
         contents := ".x1y2z{color:red}" |}; Fixture.stub ] Fixture.world0
  = processOutputFiles "/public/build/css-bundle"
      [ {| path := "/public/build/css-bundle-AB12CD34.css";
           contents := ".x1y2z{color:red}" |} ] Fixture.world0.
Proof.
  destruct (discarded_under_prefix "/public/build/css-bundle" Fixture.stub)
    as (_ & _ & Hdrop & _).
  - vm_compute. reflexivity.
  - vm_compute. reflexivity.
  - vm_compute. reflexivity.
  - exact (Hdrop [ {| path := "/public/build/css-bundle-AB12CD34.css";
                      contents := ".x1y2z{color:red}" |} ] [] Fixture.world0).
Defined.

(** The class [title] of [button.module.css], whose digest starts with
    [a1B2c]. *)
Lemma scopedName_formats_witness :
  CssModules.scopedName Fixture.production "button.module" "title" "a1B2c3D4e5F6"
  = "a1B2c"
  /\ CssModules.scopedName Fixture.development "button.module" "title" "a1B2c3D4e5F6"
     = "button.module__title__a1B2c".
Proof.
  destruct (scopedName_formats Fixture.production Fixture.development
              "button.module" "title" "a1B2c3D4e5F6")
    as (_ & _ & Hprod & _ & _ & Hdev & _).
  - reflexivity.
  - discriminate.
  - cbn. lia.
  - rewrite Hprod, Hdev. split; reflexivity.
Defined.

(** The compiled CSS of [a.module.css] reaches the secondary load hook. *)
Lemma passThrough_record_witness :
  exists r : CssModules.OnLoadResult,
    CssModules.onLoadModule Fixture.production Fixture.pluginEnv Fixture.moduleArgs
    = inr r
    /\ CssModules.loaded_pluginData r = Some Fixture.moduleData
    /\ CssModules.onLoadCompiledCss
         {| CssModules.load_path :=
              "app/styles/a.module.css?css-modules-plugin-compiled-css";
            CssModules.load_namespace := CssModules.namespace;
            CssModules.load_pluginData := Some Fixture.moduleData |}
       = inr {| CssModules.loaded_contents := ".x1y2z{color:red}";
                CssModules.loaded_loader := CssModules.css;
                CssModules.loaded_resolveDir := Some "/app/styles";
                CssModules.loaded_pluginData := None |}.
Proof.
  assert (Hload : exists r,
            CssModules.onLoadModule Fixture.production Fixture.pluginEnv
              Fixture.moduleArgs = inr r)
    by (vm_compute; eexists; reflexivity).
  destruct Hload as [r Hload]. exists r. split; [exact Hload |].
  destruct (passThrough_record Fixture.production Fixture.pluginEnv
              Fixture.moduleArgs r Hload)
    as (fileContents & pr & _ & Hpost & Hdata & Hnext).
  cbn in Hpost. injection Hpost as <-.
  split; [exact Hdata |].
  destruct (Hnext {| CssModules.resolve_path :=
                       "./a.module.css?css-modules-plugin-compiled-css";
                     CssModules.resolve_resolveDir := "/app/styles";
                     CssModules.resolve_kind := "import-statement";
                     CssModules.resolve_pluginData := CssModules.loaded_pluginData r |}
              eq_refl)
    as (Hkept & _ & Hcss).
  apply Hcss. cbn. now rewrite Hdata.
Defined.

(** * The further properties on the concrete project *)

Lemma getExternals_all_or_nothing_witness :
  @getExternals Fixture.runtime (Fixture.config "/clean")
  = inr ["crypto"; "fs"; "http"; "path"]
  /\ ["crypto"; "fs"; "http"; "path"] = @nodeBuiltins Fixture.runtime.
Proof.
  assert (Hext : @getExternals Fixture.runtime (Fixture.config "/clean")
                 = inr ["crypto"; "fs"; "http"; "path"])
    by (vm_compute; reflexivity).
  split; [exact Hext |].
  exact (proj1 (proj1 (getExternals_all_or_nothing (Fixture.config "/clean"))
                  _ Hext)).
Defined.

Lemma createEsbuildConfig_targets_witness :
  exists confA confC : BuildOptions,
    createEsbuildConfig App (Fixture.config "/clean") Fixture.production = inr confA
    /\ createEsbuildConfig Css (Fixture.config "/clean") Fixture.production = inr confC
    /\ splitting confA = true /\ splitting confC = false
    /\ minify confA = minify confC.
Proof.
  assert (HA : exists confA,
            createEsbuildConfig App (Fixture.config "/clean") Fixture.production
            = inr confA) by (vm_compute; eexists; reflexivity).
  assert (HC : exists confC,
            createEsbuildConfig Css (Fixture.config "/clean") Fixture.production
            = inr confC) by (vm_compute; eexists; reflexivity).
  destruct HA as [confA HA]. destruct HC as [confC HC].
  destruct (createEsbuildConfig_targets (Fixture.config "/clean") Fixture.production)
    as (_ & _ & Hboth).
  destruct (Hboth confA confC HA HC)
    as (_ & _ & _ & _ & _ & _ & Hminify & _ & _ & _ & HsA & HsC & _).
  exists confA, confC. auto.
Defined.

Lemma app_entryPoints_witness :
  exists conf : BuildOptions,
    createEsbuildConfig App (Fixture.config "/clean") Fixture.production = inr conf
    /\ entryPoints conf !! "routes/index" = Some "routes/index.tsx?browser"
    /\ entryPoints conf !! "entry.client" = Some "/clean/app/entry.client.tsx"
    /\ entryPoints conf !! "css-bundle" = None.
Proof.
  assert (HA : exists conf,
            createEsbuildConfig App (Fixture.config "/clean") Fixture.production
            = inr conf) by (vm_compute; eexists; reflexivity).
  destruct HA as [conf HA]. exists conf. split; [exact HA |].
  rewrite !(app_entryPoints (Fixture.config "/clean") Fixture.production conf HA).
  vm_compute. repeat split.
Defined.

Lemma cssBundlePath_is_stylesheet_witness :
  exists f : OutputFile,
    In f Fixture.cssFiles
    /\ path f = "/public/build/css-bundle-AB12CD34.css"
    /\ endsWith (path f) ".css.map" = false.
Proof.
  destruct (proj1 (cssBundlePath_is_stylesheet "/public/build/css-bundle"
                     Fixture.cssFiles Fixture.world0)
              "/public/build/css-bundle-AB12CD34.css")
    as (f & Hin & Hpath & _ & _ & Hmap).
  - vm_compute. reflexivity.
  - exists f. rewrite Hpath. auto.
Defined.

Lemma stylesheet_on_disk_witness :
  disk (processOutputFiles "/public/build/css-bundle" Fixture.cssFiles
          Fixture.world0).2 !! "/public/build/css-bundle-AB12CD34.css"
  = Some ".x1y2z{color:red}".
Proof.
  refine (proj1 (stylesheet_on_disk "/public/build/css-bundle" []
                   (tail Fixture.cssFiles)
                   {| path := "/public/build/css-bundle-AB12CD34.css";
                      contents := ".x1y2z{color:red}" |}
                   Fixture.world0 _ _)).
  - vm_compute. reflexivity.
  - intros g [<- | [<- | [<- | []]]] _; discriminate.
Defined.


Lemma compile_engine_calls_witness :
  exists (confA confC : BuildOptions) (rest : list Event),
    createEsbuildConfig App (Fixture.config "/clean") Fixture.production = inr confA
    /\ createEsbuildConfig Css (Fixture.config "/clean") Fixture.production = inr confC
    /\ log (compile Fixture.engine Fixture.channel0 Fixture.fresh Fixture.world0).2
       = log Fixture.world0
           ++ EvBuild (fullBuildOptions App confA)
                :: EvBuild (fullBuildOptions Css confC) :: rest
    /\ forall ev, In ev rest -> isEngineCall ev = false.
Proof.
  assert (Hext : getExternals (Fixture.config "/clean")
                 = inr ["crypto"; "fs"; "http"; "path"])
    by (vm_compute; reflexivity).
  destruct (compile_engine_calls (Fixture.config "/clean") Fixture.production
              Fixture.fresh Fixture.engine Fixture.channel0 Fixture.world0)
    as (evs & Hlog & [(_ & _ & e & Hrefused & _)
                     | [(confA & confC & rest & HA & HC & Hevs & Hrest & _)
                       | (ha & hc & rest & _ & _ & Hha & _)]]).
  - apply reachable_fresh.
  - rewrite Hext in Hrefused. discriminate Hrefused.
  - exists confA, confC, rest. rewrite <- Hevs. auto.
  - discriminate Hha.
Defined.

Lemma dispose_keeps_handles_witness :
  exists rest : list Event,
    log (compile Fixture.engine Fixture.channel0 Fixture.built
           (dispose Fixture.built Fixture.builtWorld)).2
    = log Fixture.builtWorld
        ++ EvDispose Fixture.appResult :: EvRebuild Fixture.appResult
             :: EvRebuild Fixture.cssResult :: rest.
Proof.
  destruct (dispose_keeps_handles Fixture.engine Fixture.channel0 Fixture.built
              Fixture.builtWorld Fixture.appResult Fixture.cssResult)
    as (rest & Hlog & _).
  - vm_compute. reflexivity.
  - vm_compute. reflexivity.
  - exists rest. exact Hlog.
Defined.

Lemma compile_builder_failure_witness :
  (compile Fixture.builderFails Fixture.channel0 Fixture.fresh Fixture.world0).1
  = (inl (mkError "Missing manifest entry"),
     set_compilers Fixture.fresh Fixture.appResult Fixture.cssResult).
Proof.
  refine (proj1 (compile_builder_failure Fixture.builderFails Fixture.channel0
                   Fixture.fresh Fixture.world0
                   (Fixture.issuedApp Fixture.builderFails)
                   (Fixture.issuedBoth Fixture.builderFails)
                   Fixture.appResult Fixture.cssResult
                   (mkError "Missing manifest entry") _ _ _)).
  - vm_compute. reflexivity.
  - vm_compute. reflexivity.
  - reflexivity.
Defined.

Lemma writeAssetsManifest_idempotent_witness :
  heap (writeAssetsManifest Fixture.engine (Fixture.config "/clean") 0
          Fixture.heldWorld).2 !! 0
  = Some {| version := "a1b2c3d4";
            url := Some "/build/manifest-A1B2C3D4.js";
            fields := EmptyString |}.
Proof.
  destruct (writeAssetsManifest_idempotent Fixture.engine (Fixture.config "/clean")
              0 Fixture.heldWorld Fixture.manifest)
    as (_ & Hurl & _).
  - reflexivity.
  - rewrite Hurl. vm_compute. reflexivity.
Defined.

Lemma module_import_is_compiledCss_witness :
  exists r : CssModules.OnLoadResult,
    CssModules.onLoadModule Fixture.production Fixture.pluginEnv Fixture.moduleArgs
    = inr r
    /\ CssModules.compiledCssFilter
         "./a.module.css?css-modules-plugin-compiled-css" = true
    /\ CssModules.cssModulesFilter
         "./a.module.css?css-modules-plugin-compiled-css" = false.
Proof.
  assert (Hload : exists r,
            CssModules.onLoadModule Fixture.production Fixture.pluginEnv
              Fixture.moduleArgs = inr r)
    by (vm_compute; eexists; reflexivity).
  destruct Hload as [r Hload]. exists r. split; [exact Hload |].
  destruct (module_import_is_compiledCss Fixture.production Fixture.pluginEnv
              Fixture.moduleArgs r Hload) as (_ & _ & Hsecond & Hfirst).
  split; [exact Hsecond | exact Hfirst].
Defined.

Lemma compiledCss_needs_pluginData_witness :
  exists e : Error,
    CssModules.onLoadCompiledCss
      {| CssModules.load_path := "app/styles/a.module.css?css-modules-plugin-compiled-css";
         CssModules.load_namespace := CssModules.namespace;
         CssModules.load_pluginData := None |}
    = inl e.
Proof.
  refine (proj1 (proj2 (proj2 (compiledCss_needs_pluginData Fixture.strayImport
                                 _ _))) _); reflexivity.
Defined.

Lemma onLoadModule_reads_production_only_witness :
  CssModules.onLoadModule Fixture.development Fixture.pluginEnv Fixture.moduleArgs
  = CssModules.onLoadModule Fixture.testing Fixture.pluginEnv Fixture.moduleArgs.
Proof.
  apply (onLoadModule_reads_production_only Fixture.development Fixture.testing).
  reflexivity.
Defined.

(** With [path] installed after the first call, a fresh compiler is
    refused and the compiler that already built goes on rebuilding. *)
Lemma compile_rebuild_ignores_dependencies_witness :
  (exists e, @getExternals Fixture.shadowedRuntime (Fixture.config "/clean") = inl e)
  /\ @compile Fixture.shadowedRuntime Fixture.engine Fixture.channel0
       Fixture.built Fixture.builtWorld
     = @compile Fixture.runtime Fixture.engine Fixture.channel0
         Fixture.built Fixture.builtWorld.
Proof.
  split; [vm_compute; eexists; reflexivity |].
  apply (compile_rebuild_ignores_dependencies Fixture.shadowedRuntime
           Fixture.runtime Fixture.engine Fixture.channel0 Fixture.built
           Fixture.builtWorld Fixture.appResult Fixture.cssResult).
  - reflexivity.
  - reflexivity.
  - vm_compute. reflexivity.
  - vm_compute. reflexivity.
Defined.
